(** * Version parsing and precedence (homework.py)

    A shallow embedding of the [Version] class of [homework.py] and the
    properties of its construction, equality and ordering.

    Modelling conventions.
    - A Python [str] is a [string]; a character is read as the code point
      [N_of_ascii c], so the model covers texts whose code points are below
      256.  On that range [\d] is [0-9], [[a-zA-Z]] is the ASCII letters,
      [.] is every character but the line feed, and [int] skips the
      white space 9-13, 32, 133 and 160.
    - A Python [int] is a [Z]; [int] of a text refuses more than 4300 digits,
      the interpreter's default limit for such conversions.
    - A method that can raise returns a [result]; [None] is [option]'s
      [None]. *)

From Stdlib Require Import ZArith List Bool Ascii String Lia.
Import ListNotations.

Local Open Scope string_scope.
Local Open Scope Z_scope.

(** ** The fragment of Python the class relies on *)

Module Py.

Inductive exn : Type :=
| ValueError (msg : string)
| IndexError
| TypeError.

Inductive result (A : Type) : Type :=
| Ok (a : A)
| Raise (e : exn).

Arguments Ok {A} a.
Arguments Raise {A} e.

Definition bind {A B : Type} (m : result A) (k : A -> result B) : result B :=
  match m with
  | Ok a => k a
  | Raise e => Raise e
  end.

Definition ord (c : ascii) : N := N_of_ascii c.

Definition isdigit (c : ascii) : bool :=
  ((48 <=? ord c) && (ord c <=? 57))%N.

Definition isalpha_ascii (c : ascii) : bool :=
  (((65 <=? ord c) && (ord c <=? 90)) || ((97 <=? ord c) && (ord c <=? 122)))%N.

(** White space skipped by [int] on both sides of the literal. *)
Definition isspace (c : ascii) : bool :=
  (((9 <=? ord c) && (ord c <=? 13)) || (ord c =? 32) || (ord c =? 133)
   || (ord c =? 160))%N.

Definition digit_value (c : ascii) : Z := Z.of_N (ord c) - 48.

(** [c in s] for a one-character [c]. *)
Fixpoint contains (c : ascii) (s : string) : bool :=
  match s with
  | EmptyString => false
  | String x r => if Ascii.eqb x c then true else contains c r
  end.

(** [s.lstrip(c)] for a one-character set. *)
Fixpoint lstrip (c : ascii) (s : string) : string :=
  match s with
  | EmptyString => EmptyString
  | String x r => if Ascii.eqb x c then lstrip c r else s
  end.

(** [s.split(c)]: never empty, one more entry than occurrences of [c]. *)
Fixpoint split (c : ascii) (s : string) : list string :=
  match s with
  | EmptyString => [EmptyString]
  | String x r =>
      if Ascii.eqb x c then EmptyString :: split c r
      else match split c r with
           | h :: t => String x h :: t
           | [] => [String x EmptyString]
           end
  end.

(** [s.split(c, 1)]: cut at the first occurrence of [c] only. *)
Fixpoint split1 (c : ascii) (s : string) : list string :=
  match s with
  | EmptyString => [EmptyString]
  | String x r =>
      if Ascii.eqb x c then [EmptyString; r]
      else match split1 c r with
           | h :: t => String x h :: t
           | [] => [String x EmptyString]
           end
  end.

(** [a, b = l]: unpacking into two targets. *)
Definition unpack2 {A : Type} (l : list A) : result (A * A) :=
  match l with
  | [a; b] => Ok (a, b)
  | _ => Raise (ValueError "unpack")
  end.

(** [l[i]]. *)
Definition getitem {A : Type} (l : list A) (i : nat) : result A :=
  match nth_error l i with
  | Some a => Ok a
  | None => Raise IndexError
  end.

(** *** [int(s)] in base 10 *)

Fixpoint all_space (s : string) : bool :=
  match s with
  | EmptyString => true
  | String c r => isspace c && all_space r
  end.

Fixpoint skip_space (s : string) : string :=
  match s with
  | EmptyString => EmptyString
  | String c r => if isspace c then skip_space r else s
  end.

(** The digits of the literal: single underscores are allowed between two
    digits, white space only after the last digit and up to the end.
    [after_digit] tells whether the previous character was a digit. *)
Fixpoint int_digits (acc : Z) (after_digit : bool) (s : string) : option Z :=
  match s with
  | EmptyString => if after_digit then Some acc else None
  | String c r =>
      if isdigit c then int_digits (10 * acc + digit_value c) true r
      else if Ascii.eqb c "_" then
        if after_digit then int_digits acc false r else None
      else if isspace c then
        if after_digit && all_space r then Some acc else None
      else None
  end.

(** Leading white space, an optional sign, then the digits. *)
Definition int_literal (s : string) : option Z :=
  match skip_space s with
  | EmptyString => None
  | String c r =>
      if Ascii.eqb c "+" then int_digits 0 false r
      else if Ascii.eqb c "-" then option_map Z.opp (int_digits 0 false r)
      else int_digits 0 false (String c r)
  end.

(** The digits and underscores that [int] scans after the sign, before it
    converts them: the number of digits when no underscore is doubled or
    last, [None] otherwise. *)
Fixpoint scan_digits (count : nat) (after_underscore : bool) (s : string)
  : option nat :=
  match s with
  | EmptyString => if after_underscore then None else Some count
  | String c r =>
      if isdigit c then scan_digits (S count) false r
      else if Ascii.eqb c "_" then
        if after_underscore then None else scan_digits count true r
      else if after_underscore then None else Some count
  end.

(** [sys.get_int_max_str_digits()], by default. *)
Definition max_str_digits : nat := 4300.

(** Whether the scanned digits are more than the limit allows. *)
Definition exceeds_limit (s : string) : bool :=
  match skip_space s with
  | EmptyString => false
  | String c r =>
      let body :=
        if Ascii.eqb c "+" || Ascii.eqb c "-" then r else String c r in
      match body with
      | EmptyString => false
      | String x _ =>
          if Ascii.eqb x "_" then false
          else match scan_digits 0 false body with
               | Some n => (max_str_digits <? n)%nat
               | None => false
               end
      end
  end.

(** The messages of the two errors of [int] are kept up to the colon after
    which the interpreter describes the offending value. *)
Definition digit_limit_message : string :=
  "Exceeds the limit (4300 digits) for integer string conversion".

(** The limit is checked on the scanned digits, leading zeros included,
    before anything that follows them is looked at. *)
Definition int (s : string) : result Z :=
  if exceeds_limit s then Raise (ValueError digit_limit_message)
  else
    match int_literal s with
    | Some n => Ok n
    | None => Raise (ValueError "invalid literal for int() with base 10")
    end.

(** *** The two regular expressions *)

(** The longest prefix of digits and what follows it: one greedy [\d*]. *)
Fixpoint span_digits (s : string) : string * string :=
  match s with
  | EmptyString => (EmptyString, EmptyString)
  | String c r =>
      if isdigit c then let (d, t) := span_digits r in (String c d, t)
      else (EmptyString, s)
  end.

(** The longest prefix without a line feed and what follows it: [.*]. *)
Fixpoint span_line (s : string) : string * string :=
  match s with
  | EmptyString => (EmptyString, EmptyString)
  | String c r =>
      if Ascii.eqb c "010" then (EmptyString, s)
      else let (d, t) := span_line r in (String c d, t)
  end.

(** [\d+] then a literal dot. *)
Definition digits_dot (s : string) : option (string * string) :=
  match span_digits s with
  | (String c d, String x r) =>
      if Ascii.eqb x "." then Some (String c d, r) else None
  | _ => None
  end.

(** [$]: the end of the text, or a line feed that is its last character. *)
Definition at_end (s : string) : bool :=
  match s with
  | EmptyString => true
  | String c EmptyString => Ascii.eqb c "010"
  | _ => false
  end.

(** [re.match] of the pattern of [_split_version] on [s], giving groups 1 and
    2: the pattern is anchored by [^] and [$], its first group is
    [\d+\.\d+\.\d+] and its second group is [[a-zA-Z].*].
    A digit run is followed by a character that is no digit, so the greedy
    run is the only one that can match; [.*] stops at the first line feed and
    [$] holds at the end of the text or before a line feed that ends it. *)
Definition re_match_version (s : string) : option (string * string) :=
  match digits_dot s with
  | None => None
  | Some (d1, r1) =>
      match digits_dot r1 with
      | None => None
      | Some (d2, r2) =>
          match span_digits r2 with
          | (String c3 d3, String l r3) =>
              if isalpha_ascii l then
                let (body, r4) := span_line r3 in
                if at_end r4
                then Some (d1 ++ "." ++ d2 ++ "." ++ String c3 d3, String l body)
                else None
              else None
          | _ => None
          end
      end
  end.

(** [re.findall] of the pattern [\d+] on [s]: the maximal digit runs, left to
    right. *)
Fixpoint re_findall_digits (s : string) : list string :=
  match s with
  | EmptyString => []
  | String c r =>
      if isdigit c then
        match r with
        | EmptyString => [String c EmptyString]
        | String c' _ =>
            if isdigit c' then
              match re_findall_digits r with
              | h :: t => String c h :: t
              | [] => [String c EmptyString]
              end
            else String c EmptyString :: re_findall_digits r
        end
      else re_findall_digits r
  end.

(** A value stored in the middle of a parsed part: an [int] or a [str]. *)
Inductive value : Type :=
| VInt (n : Z)
| VStr (s : string).

(** [a < b] and [a > b] on such values; mixing the types raises. *)
Definition lt (a b : value) : result bool :=
  match a, b with
  | VInt x, VInt y => Ok (x <? y)
  | VStr x, VStr y => Ok (String.ltb x y)
  | _, _ => Raise TypeError
  end.

Definition gt (a b : value) : result bool := lt b a.

End Py.

Import Py.

Notation "x <- m ;; k" := (Py.bind m (fun x => k))
  (at level 61, m at next level, right associativity).

(** ** The class [Version] *)

Module Version.

(** A parsed pre-release part: [(True, int, str)] or [(False, str, str)]. *)
Definition part : Type := (bool * Py.value * string)%type.

(** The attributes of an instance once [__init__] has returned. *)
Record t : Type := mk {
  version : string;
  major : Z;
  minor : Z;
  patch : Z;
  pre_release : option string;
  pre_release_parts : option (list part)
}.

Definition _split_version (version : string)
  : result (string * option string) :=
  let version := Py.lstrip "v" version in
  if Py.contains "-" version then
    p <- Py.unpack2 (Py.split1 "-" version) ;;
    Ok (fst p, Some (snd p))
  else
    match Py.re_match_version version with
    | Some (main_version, pre_release) => Ok (main_version, Some pre_release)
    | None => Ok (version, None)
    end.

(** [while len(version_parts) < 3: version_parts.append('0')], run for at
    most [n] rounds. *)
Fixpoint pad_loop (n : nat) (version_parts : list string) : list string :=
  match n with
  | O => version_parts
  | S n' =>
      if (List.length version_parts <? 3)%nat
      then pad_loop n' (version_parts ++ ["0"])
      else version_parts
  end.

(** Three rounds are enough: see [pad_loop_exit]. *)
Definition pad (version_parts : list string) : list string :=
  pad_loop 3 version_parts.

(** The error raised by [_parse_main_version]. *)
Definition InvalidVersionFormat (main_version : string) : exn :=
  ValueError ("Invalid version format: " ++ main_version).

Definition _parse_main_version (main_version : string) : result (Z * Z * Z) :=
  let version_parts := pad (Py.split "." main_version) in
  let body :=
    major <- (p <- Py.getitem version_parts 0 ;; Py.int p) ;;
    minor <- (p <- Py.getitem version_parts 1 ;; Py.int p) ;;
    patch <- (p <- Py.getitem version_parts 2 ;; Py.int p) ;;
    Ok (major, minor, patch) in
  match body with
  | Ok r => Ok r
  | Raise (ValueError _) | Raise IndexError =>
      Raise (InvalidVersionFormat main_version)
  | Raise e => Raise e
  end.

(** The body of the [for part in parts] loop: the tuple that is appended. *)
Definition parse_part (part : string) : result Version.part :=
  match Py.re_findall_digits part with
  | [] => Ok (false, VStr part, part)
  | numbers => n0 <- Py.getitem numbers 0 ;; n <- Py.int n0 ;;
               Ok (true, VInt n, part)
  end.

Fixpoint parse_loop (parts : list string) (parsed_parts : list part)
  : result (list part) :=
  match parts with
  | [] => Ok parsed_parts
  | part :: rest =>
      x <- parse_part part ;; parse_loop rest (parsed_parts ++ [x])
  end.

Definition _parse_pre_release_parts (pre_release : option string)
  : result (option (list part)) :=
  match pre_release with
  | None => Ok None
  | Some pre_release =>
      parsed_parts <- parse_loop (Py.split "." pre_release) [] ;;
      Ok (Some parsed_parts)
  end.

Definition __init__ (version : string) : result t :=
  s <- _split_version version ;;
  let (main_version, pre_release) := s in
  m <- _parse_main_version main_version ;;
  let '(major, minor, patch) := m in
  parts <- _parse_pre_release_parts pre_release ;;
  Ok (mk version major minor patch pre_release parts).

Definition _has_pre_release (self : t) : bool :=
  match pre_release_parts self with
  | None => false
  | Some _ => true
  end.

(** [Some true] when self < other, [Some false] when self > other, [None]
    when the two parts tie. *)
Definition _compare_single_pre_release_part (self_part other_part : part)
  : result (option bool) :=
  let '(self_is_numeric, self_value, self_string) := self_part in
  let '(other_is_numeric, other_value, other_string) := other_part in
  if self_is_numeric && negb other_is_numeric then Ok (Some true)
  else if negb self_is_numeric && other_is_numeric then Ok (Some false)
  else if self_is_numeric && other_is_numeric then
    l <- Py.lt self_value other_value ;;
    if l : bool then Ok (Some true)
    else
      g <- Py.gt self_value other_value ;;
      if g : bool then Ok (Some false) else Ok None
  else if String.ltb self_string other_string then Ok (Some true)
  else if String.ltb other_string self_string then Ok (Some false)
  else Ok None.

(** [len(x)] of an attribute that may be [None]. *)
Definition len_parts (p : option (list part)) : result nat :=
  match p with
  | Some l => Ok (List.length l)
  | None => Raise TypeError
  end.

Definition subscript (p : option (list part)) (i : nat) : result part :=
  match p with
  | Some l => Py.getitem l i
  | None => Raise TypeError
  end.

(** The rounds [i, i+1, ..., i+steps-1] of [for i in range(max_parts)] and
    the [return False] after the loop. *)
Fixpoint compare_loop (self other : t) (i steps : nat) : result bool :=
  match steps with
  | O => Ok false
  | S steps' =>
      ls <- len_parts (pre_release_parts self) ;;
      if (ls <=? i)%nat then Ok true
      else
        lo <- len_parts (pre_release_parts other) ;;
        if (lo <=? i)%nat then Ok false
        else
          self_part <- subscript (pre_release_parts self) i ;;
          other_part <- subscript (pre_release_parts other) i ;;
          part_comparison <-
            _compare_single_pre_release_part self_part other_part ;;
          match part_comparison with
          | Some b => Ok b
          | None => compare_loop self other (S i) steps'
          end
  end.

Definition _compare_pre_release_parts (self other : t) : result bool :=
  ls <- len_parts (pre_release_parts self) ;;
  lo <- len_parts (pre_release_parts other) ;;
  compare_loop self other 0 (Nat.max ls lo).

Definition _compare_pre_release (self other : t) : result bool :=
  let self_has_pre := _has_pre_release self in
  let other_has_pre := _has_pre_release other in
  if negb self_has_pre && negb other_has_pre then Ok false
  else if negb self_has_pre && other_has_pre then Ok false
  else if self_has_pre && negb other_has_pre then Ok true
  else _compare_pre_release_parts self other.

(** [a == b] on attributes that hold a [str] or [None]. *)
Definition eq_attr (a b : option string) : bool :=
  match a, b with
  | None, None => true
  | Some x, Some y => String.eqb x y
  | _, _ => false
  end.

Definition __eq__ (self other : t) : bool :=
  (major self =? major other) && (minor self =? minor other)
  && (patch self =? patch other)
  && eq_attr (pre_release self) (pre_release other).

Definition __lt__ (self other : t) : result bool :=
  if negb (major self =? major other) then Ok (major self <? major other)
  else if negb (minor self =? minor other) then Ok (minor self <? minor other)
  else if negb (patch self =? patch other) then Ok (patch self <? patch other)
  else _compare_pre_release self other.

(** [str(self)] and [repr(self)]. *)
Definition __str__ (self : t) : string := version self.

Definition __repr__ (self : t) : string := "Version('" ++ version self ++ "')".

(** [self != other]: the inherited [__ne__] inverts [__eq__]. *)
Definition __ne__ (self other : t) : bool := negb (__eq__ self other).

(** The three methods that the decorator [@total_ordering] adds to a class
    that defines [__lt__]: [a > b] is (not a < b) and (a != b), [a <= b] is
    (a < b) or (a == b), and [a >= b] is (not a < b). *)
Definition __gt__ (self other : t) : result bool :=
  op_result <- __lt__ self other ;;
  Ok (negb op_result && __ne__ self other).

Definition __le__ (self other : t) : result bool :=
  op_result <- __lt__ self other ;;
  Ok (op_result || __eq__ self other).

Definition __ge__ (self other : t) : result bool :=
  op_result <- __lt__ self other ;;
  Ok (negb op_result).

End Version.

Import Version.

(** ** Vocabulary of the statements *)

(** A text made of digits only. *)
Fixpoint all_digits (s : string) : bool :=
  match s with
  | EmptyString => true
  | String c r => Py.isdigit c && all_digits r
  end.

(** A non-empty text made of digits only: what [\d+] matches as a whole. *)
Definition digit_group (s : string) : bool :=
  match s with
  | EmptyString => false
  | String _ _ => all_digits s
  end.

(** The number written by a text of digits, most significant digit first. *)
Fixpoint decimal (acc : Z) (s : string) : Z :=
  match s with
  | EmptyString => acc
  | String c r => decimal (10 * acc + Py.digit_value c) r
  end.

(** [n] copies of the character [c]. *)
Fixpoint replicate (n : nat) (c : ascii) : string :=
  match n with
  | O => EmptyString
  | S n' => String c (replicate n' c)
  end.

(** What follows a maximal digit run: nothing, or a character that is not a
    digit. *)
Definition no_digit_ahead (s : string) : bool :=
  match s with
  | EmptyString => true
  | String c _ => negb (Py.isdigit c)
  end.

(** What stops [.*]: the end of the text or a line feed. *)
Definition line_ends (s : string) : bool :=
  match s with
  | EmptyString => true
  | String c _ => Ascii.eqb c "010"
  end.

(** A text of at most as many characters as [int] accepts digits. *)
Definition within_limit (s : string) : bool :=
  (String.length s <=? Py.max_str_digits)%nat.

(** The tuple that [_parse_pre_release_parts] appends for one segment, as a
    total function; [parse_part_spec] shows when the method computes it. *)
Definition part_of (segment : string) : part :=
  match Py.re_findall_digits segment with
  | [] => (false, VStr segment, segment)
  | h :: _ => (true, VInt (decimal 0 h), segment)
  end.

(** The parts of an optional pre-release text, as a total function;
    [parse_pre_release_parts_spec] shows when the method computes it. *)
Definition parts_of (pre_release : option string) : option (list part) :=
  option_map (fun p => map part_of (Py.split "." p)) pre_release.

(** The first digit run of a segment, if any, is within the limit. *)
Definition run_within_limit (segment : string) : bool :=
  match Py.re_findall_digits segment with
  | [] => true
  | h :: _ => within_limit h
  end.

(** So is the first digit run of every segment of the tail. *)
Definition tail_within_limit (tail : string) : bool :=
  forallb run_within_limit (Py.split "." tail).

Definition tail_ok (pre_release : option string) : bool :=
  match pre_release with
  | None => true
  | Some tail => tail_within_limit tail
  end.

(** The characters that a text accepted by [int] is made of. *)
Definition int_char (c : ascii) : bool :=
  Py.isdigit c || Py.isspace c || Ascii.eqb c "+" || Ascii.eqb c "-"
  || Ascii.eqb c "_".

Fixpoint int_chars (s : string) : bool :=
  match s with
  | EmptyString => true
  | String c r => int_char c && int_chars r
  end.

(** The first three entries the core parser converts. *)
Definition core_entries (main_version : string) : list string :=
  firstn 3 (pad (Py.split "." main_version)).

(** An entry that [int] accepts, with a result that is not negative. *)
Definition parseable (entry : string) : bool :=
  match Py.int entry with
  | Ok n => 0 <=? n
  | Raise _ => false
  end.

(** What a three-way comparison must satisfy to be a strict total order on
    its type. *)
Record is_order {A : Type} (c : A -> A -> comparison) : Prop := {
  ord_eq : forall x y, c x y = Eq -> x = y;
  ord_refl : forall x, c x x = Eq;
  ord_opp : forall x y, c y x = CompOpp (c x y);
  ord_trans : forall x y z, c x y = Lt -> c y z = Lt -> c x z = Lt
}.

(** Left summands before right ones. *)
Definition sum_cmp {A B : Type} (ca : A -> A -> comparison)
  (cb : B -> B -> comparison) (x y : A + B) : comparison :=
  match x, y with
  | inl a, inl b => ca a b
  | inl _, inr _ => Lt
  | inr _, inl _ => Gt
  | inr a, inr b => cb a b
  end.

(** Position by position; a proper prefix comes first. *)
Fixpoint list_cmp {A : Type} (c : A -> A -> comparison) (a b : list A)
  : comparison :=
  match a, b with
  | [], [] => Eq
  | [], _ :: _ => Lt
  | _ :: _, [] => Gt
  | x :: a', y :: b' =>
      match c x y with
      | Eq => list_cmp c a' b'
      | r => r
      end
  end.

(** [None] after every [Some]. *)
Definition tail_cmp {A : Type} (c : A -> A -> comparison) (x y : option A)
  : comparison :=
  match x, y with
  | Some a, Some b => c a b
  | Some _, None => Lt
  | None, Some _ => Gt
  | None, None => Eq
  end.

(** First components first. *)
Definition pair_cmp {A B : Type} (ca : A -> A -> comparison)
  (cb : B -> B -> comparison) (x y : A * B) : comparison :=
  match ca (fst x) (fst y) with
  | Eq => cb (snd x) (snd y)
  | r => r
  end.

(** The outcome of [_compare_single_pre_release_part] for a comparison. *)
Definition verdict (c : comparison) : option bool :=
  match c with
  | Lt => Some true
  | Gt => Some false
  | Eq => None
  end.

(** Whether a comparison says "less". *)
Definition is_lt (c : comparison) : bool :=
  match c with
  | Lt => true
  | _ => false
  end.

(** A pre-release identifier: the integer of a numeric part, the text of a
    textual one. *)
Definition ident : Type := (Z + string)%type.

(** Integers by value, texts by code points, integers before texts. *)
Definition ident_cmp : ident -> ident -> comparison :=
  sum_cmp Z.compare String.compare.

(** The identifier of a part; the second case is a numeric part that holds
    a [str], which the parser never builds (see [well_typed]). *)
Definition ident_of (p : part) : ident :=
  match p with
  | (true, VInt n, _) => inl n
  | (true, VStr s, _) => inr s
  | (false, _, s) => inr s
  end.

(** The parts the parser builds: a numeric part holds an [int]. *)
Definition well_typed (p : part) : bool :=
  match p with
  | (true, VStr _, _) => false
  | _ => true
  end.

(** The key of an instance: major, minor, patch, then the identifiers of
    the pre-release parts, or [None] without a pre-release tail. *)
Definition key : Type := (Z * (Z * (Z * option (list ident))))%type.

(** Keys are compared component by component; a key without identifiers
    comes after every key of the same triple that has some. *)
Definition key_cmp : key -> key -> comparison :=
  pair_cmp Z.compare (pair_cmp Z.compare (pair_cmp Z.compare
    (tail_cmp (list_cmp ident_cmp)))).

Definition key_of (v : t) : key :=
  (major v, (minor v, (patch v,
     option_map (map ident_of) (pre_release_parts v)))).

(** The loop of [_compare_pre_release_parts] on the two lists, by recursion
    on them; [compare_loop_lex] relates it to the indexed loop. *)
Fixpoint lex_parts (a b : list part) : result bool :=
  match a, b with
  | [], [] => Ok false
  | [], _ :: _ => Ok true
  | _ :: _, [] => Ok false
  | x :: a', y :: b' =>
      c <- _compare_single_pre_release_part x y ;;
      match c with
      | Some r => Ok r
      | None => lex_parts a' b'
      end
  end.

(** Every part of the instance is well typed. *)
Definition well_formed (v : t) : bool :=
  match pre_release_parts v with
  | Some l => forallb well_typed l
  | None => true
  end.

(** The instance [v] with other parsed parts. *)
Definition with_parts (v : t) (p : option (list part)) : t :=
  mk (version v) (major v) (minor v) (patch v) (pre_release v) p.

(** Two parts tie: the single-part comparison returns [None]. *)
Definition ties (p q : part) : Prop :=
  _compare_single_pre_release_part p q = Ok None.

(** The same major, minor and patch. *)
Definition same_triple (a b : t) : Prop :=
  major a = major b /\ minor a = minor b /\ patch a = patch b.

(** Instances used to instantiate the statements: those that construction
    returns for "1.0.0-rc.7" and "1.0.0-rc.a" (see [sample_instances]). *)
Definition rc_7 : t :=
  mk "1.0.0-rc.7" 1 0 0 (Some "rc.7") (parts_of (Some "rc.7")).

Definition rc_a : t :=
  mk "1.0.0-rc.a" 1 0 0 (Some "rc.a") (parts_of (Some "rc.a")).

(** The instances that construction returns for "1.0.0-rc.2",
    "1.0.0-rc.10", "1.0.0-3.x" and "1.0.0-03.y". *)
Definition rc_2 : t :=
  mk "1.0.0-rc.2" 1 0 0 (Some "rc.2") (parts_of (Some "rc.2")).

Definition rc_10 : t :=
  mk "1.0.0-rc.10" 1 0 0 (Some "rc.10") (parts_of (Some "rc.10")).

Definition three_x : t :=
  mk "1.0.0-3.x" 1 0 0 (Some "3.x") (parts_of (Some "3.x")).

Definition zero_three_y : t :=
  mk "1.0.0-03.y" 1 0 0 (Some "03.y") (parts_of (Some "03.y")).

(** The instances that construction returns for "1.0.0-rc" and
    "1.0.0-rc.1.x". *)
Definition rc_only : t :=
  mk "1.0.0-rc" 1 0 0 (Some "rc") (parts_of (Some "rc")).

Definition rc_1_x : t :=
  mk "1.0.0-rc.1.x" 1 0 0 (Some "rc.1.x") (parts_of (Some "rc.1.x")).

(** The text made of one line feed. *)
Definition line_feed : string := String "010" EmptyString.

(** The instances that construction returns for "1.0.0-alpha", "1.0.0-beta"
    and "1.0.0". *)
Definition v_alpha : t :=
  mk "1.0.0-alpha" 1 0 0 (Some "alpha") (parts_of (Some "alpha")).

Definition v_beta : t :=
  mk "1.0.0-beta" 1 0 0 (Some "beta") (parts_of (Some "beta")).

Definition v_release : t := mk "1.0.0" 1 0 0 None None.

(** [sep.join(l)]. *)
Fixpoint join (sep : string) (l : list string) : string :=
  match l with
  | [] => EmptyString
  | [x] => x
  | x :: rest => x ++ sep ++ join sep rest
  end.

(** The number of occurrences of [c] in [s]. *)
Fixpoint count_char (c : ascii) (s : string) : nat :=
  match s with
  | EmptyString => O
  | String x r => (if Ascii.eqb x c then 1 else 0) + count_char c r
  end.

(** Whether a text holds a digit. *)
Fixpoint has_digit (s : string) : bool :=
  match s with
  | EmptyString => false
  | String c r => Py.isdigit c || has_digit r
  end.

(** The text of a parsed part: its third component. *)
Definition text_of (p : part) : string := snd p.

(** A way to write the number of the digits [X] that [int] accepts: white
    space, an optional plus sign, leading zeros, the digits, white space. *)
Definition decorated (pre : string) (plus : bool) (zeros : nat)
  (X post : string) : string :=
  pre ++ (if plus then "+" else "") ++ replicate zeros "0" ++ X ++ post.

(** The entry [e] writes the digit group [X] in such a way, with no more
    digits than [int] accepts. *)
Definition writes (e X : string) : Prop :=
  digit_group X = true /\
  exists pre plus zeros post,
    Py.all_space pre = true /\ Py.all_space post = true /\
    (zeros + String.length X <= Py.max_str_digits)%nat /\
    e = decorated pre plus zeros X post.

(** Two instances with the same key of which [__eq__] is false. *)
Definition tied_unequal (a b : t) : Prop :=
  key_of a = key_of b /\ __eq__ a b = false.

(** Lexicographic order on the triples of two instances. *)
Definition triple_below (a b : t) : Prop :=
  major a < major b \/
  (major a = major b /\
   (minor a < minor b \/ (minor a = minor b /\ patch a < patch b))).

(** The instances that construction returns for "1.0.0-1", "1.0.0-01" and
    "1.0.1-alpha" (see [more_sample_instances]). *)
Definition one : t := mk "1.0.0-1" 1 0 0 (Some "1") (parts_of (Some "1")).

Definition zero_one : t :=
  mk "1.0.0-01" 1 0 0 (Some "01") (parts_of (Some "01")).

Definition next_alpha : t :=
  mk "1.0.1-alpha" 1 0 1 (Some "alpha") (parts_of (Some "alpha")).

(** ** Facts about the Python fragment *)

Section PyFacts.

Ltac bools :=
  repeat rewrite ?andb_true_iff, ?orb_true_iff, ?andb_false_iff,
    ?orb_false_iff, ?N.leb_le, ?N.leb_gt, ?N.eqb_eq, ?N.eqb_neq in *.

Lemma isdigit_not_space c : Py.isdigit c = true -> Py.isspace c = false.
Proof. unfold Py.isdigit, Py.isspace. bools. lia. Qed.

Lemma isalpha_not_digit c : Py.isalpha_ascii c = true -> Py.isdigit c = false.
Proof. unfold Py.isdigit, Py.isalpha_ascii. bools. lia. Qed.

Lemma isdigit_neq c x :
  Py.isdigit c = true -> Py.isdigit x = false -> Ascii.eqb c x = false.
Proof.
  intros Hc Hx. destruct (Ascii.eqb_spec c x) as [->|]; congruence.
Qed.

Lemma isalpha_neq c x :
  Py.isalpha_ascii c = true -> Py.isalpha_ascii x = false ->
  Ascii.eqb c x = false.
Proof.
  intros Hc Hx. destruct (Ascii.eqb_spec c x) as [->|]; congruence.
Qed.

Lemma digit_value_nonneg c : Py.isdigit c = true -> 0 <= Py.digit_value c.
Proof. unfold Py.isdigit, Py.digit_value. bools. lia. Qed.

Lemma int_digits_all_digits s :
  all_digits s = true ->
  forall acc, Py.int_digits acc true s = Some (decimal acc s).
Proof.
  induction s as [|c r IH]; simpl; intros H acc; [reflexivity|].
  apply andb_true_iff in H as [Hc Hr]. rewrite Hc. now apply IH.
Qed.

Lemma int_literal_digit_group s :
  digit_group s = true -> Py.int_literal s = Some (decimal 0 s).
Proof.
  destruct s as [|c r]; [discriminate|]. simpl. intros H.
  apply andb_true_iff in H as [Hc Hr].
  unfold Py.int_literal. simpl. rewrite (isdigit_not_space c Hc).
  rewrite (isdigit_neq c "+" Hc eq_refl), (isdigit_neq c "-" Hc eq_refl).
  simpl. rewrite Hc. now apply int_digits_all_digits.
Qed.

Lemma scan_all_digits s :
  all_digits s = true ->
  forall n, Py.scan_digits n false s = Some (n + String.length s)%nat.
Proof.
  induction s as [|c r IH]; simpl; intros H n; [f_equal; lia|].
  apply andb_true_iff in H as [Hc Hr]. rewrite Hc, (IH Hr). f_equal. lia.
Qed.

Lemma exceeds_limit_digit_group s :
  digit_group s = true -> Py.exceeds_limit s = negb (within_limit s).
Proof.
  destruct s as [|c r]; [discriminate|]. intros H. pose proof H as H'.
  simpl in H'. apply andb_true_iff in H' as [Hc Hr].
  unfold Py.exceeds_limit. cbn [Py.skip_space].
  rewrite (isdigit_not_space c Hc).
  rewrite (isdigit_neq c "+" Hc eq_refl), (isdigit_neq c "-" Hc eq_refl).
  cbn [orb]. rewrite (isdigit_neq c "_" Hc eq_refl).
  rewrite (scan_all_digits (String c r) H 0%nat). unfold within_limit.
  cbn [Nat.add]. rewrite Nat.ltb_antisym. reflexivity.
Qed.

Lemma int_digit_group s :
  digit_group s = true -> within_limit s = true ->
  Py.int s = Ok (decimal 0 s).
Proof.
  intros H L. unfold Py.int.
  now rewrite (exceeds_limit_digit_group s H), L,
    (int_literal_digit_group s H).
Qed.

Lemma int_digit_group_beyond s :
  digit_group s = true -> within_limit s = false ->
  Py.int s = Raise (ValueError Py.digit_limit_message).
Proof.
  intros H L. unfold Py.int.
  now rewrite (exceeds_limit_digit_group s H), L.
Qed.

(** [int] raises nothing but a [ValueError], and returns the number of the
    literal when it returns. *)
Lemma int_raises s e : Py.int s = Raise e -> exists msg, e = ValueError msg.
Proof.
  unfold Py.int. destruct (Py.exceeds_limit s).
  - intros H. injection H as <-. eauto.
  - destruct (Py.int_literal s); [discriminate|].
    intros H. injection H as <-. eauto.
Qed.

Lemma int_ok_literal s n : Py.int s = Ok n -> Py.int_literal s = Some n.
Proof.
  unfold Py.int. destruct (Py.exceeds_limit s); [discriminate|].
  destruct (Py.int_literal s); [congruence|discriminate].
Qed.

Lemma int_literal_none s :
  Py.int_literal s = None -> exists msg, Py.int s = Raise (ValueError msg).
Proof.
  intros H. unfold Py.int. rewrite H. destruct (Py.exceeds_limit s); eauto.
Qed.

(** Without a minus sign [int] cannot return a negative number. *)
Lemma int_digits_nonneg s :
  forall acc b n, 0 <= acc -> Py.int_digits acc b s = Some n -> 0 <= n.
Proof.
  induction s as [|c r IH]; simpl; intros acc b n Hacc H.
  - destruct b; congruence.
  - destruct (Py.isdigit c) eqn:Hc.
    + pose proof (digit_value_nonneg c Hc).
      apply (IH (10 * acc + Py.digit_value c) true n); [lia|exact H].
    + destruct (Ascii.eqb c "_").
      * destruct b; [|discriminate]. now apply (IH acc false n).
      * destruct (Py.isspace c); [|discriminate].
        destruct (b && Py.all_space r); congruence.
Qed.

Lemma contains_skip_space c s :
  Py.contains c s = false -> Py.contains c (Py.skip_space s) = false.
Proof.
  induction s as [|x r IH]; simpl; [reflexivity|].
  destruct (Ascii.eqb x c) eqn:E; [discriminate|]. intros H.
  destruct (Py.isspace x); [auto|]. simpl. now rewrite E.
Qed.

Lemma int_literal_nonneg s n :
  Py.contains "-" s = false -> Py.int_literal s = Some n -> 0 <= n.
Proof.
  intros Hs. apply contains_skip_space in Hs. unfold Py.int_literal.
  destruct (Py.skip_space s) as [|c r]; [discriminate|].
  simpl in Hs. destruct (Ascii.eqb c "-") eqn:E; [discriminate|].
  destruct (Ascii.eqb c "+"); apply int_digits_nonneg; lia.
Qed.

End PyFacts.

Section TextFacts.

Lemma contains_app c a b :
  Py.contains c (a ++ b) = Py.contains c a || Py.contains c b.
Proof.
  induction a as [|x r IH]; simpl; [reflexivity|].
  now destruct (Ascii.eqb x c).
Qed.

(** [split(c, 1)] of a text that contains [c] has exactly two entries: what
    precedes the first [c], and what follows it. *)
Lemma split1_contains c s :
  Py.contains c s = true ->
  exists a b, Py.split1 c s = [a; b] /\ Py.contains c a = false
              /\ s = a ++ String c b.
Proof.
  induction s as [|x r IH]; simpl; [discriminate|].
  destruct (Ascii.eqb_spec x c) as [->|Hx].
  - intros _. exists EmptyString, r. repeat split.
  - intros H. destruct (IH H) as (a & b & E & Ha & ->). rewrite E.
    exists (String x a), b. simpl.
    destruct (Ascii.eqb_spec x c); [contradiction|]. repeat split. exact Ha.
Qed.

(** The entries of [split] contain no character that the text lacks. *)
Lemma split_without d c s :
  Py.contains d s = false ->
  Forall (fun p => Py.contains d p = false) (Py.split c s).
Proof.
  induction s as [|x r IH]; simpl.
  - intros _. repeat constructor.
  - destruct (Ascii.eqb x d) eqn:Hd; [discriminate|]. intros H.
    specialize (IH H). destruct (Ascii.eqb x c).
    + constructor; [reflexivity|exact IH].
    + destruct (Py.split c r) as [|h t].
      * repeat constructor. simpl. now rewrite Hd.
      * inversion IH; subst. constructor; [|assumption].
        simpl. now rewrite Hd.
Qed.

Lemma lstrip_replicate c n s :
  Py.lstrip c (replicate n c ++ s) = Py.lstrip c s.
Proof.
  induction n as [|n IH]; simpl; [reflexivity|].
  now rewrite Ascii.eqb_refl.
Qed.

Lemma span_digits_app d r :
  all_digits d = true -> no_digit_ahead r = true ->
  Py.span_digits (d ++ r) = (d, r).
Proof.
  intros Hd Hr. induction d as [|c d IH]; simpl in *.
  - destruct r as [|x r]; [reflexivity|]. simpl in *.
    now destruct (Py.isdigit x).
  - apply andb_true_iff in Hd as [Hc Hd]. rewrite Hc, (IH Hd). reflexivity.
Qed.

Lemma span_digits_spec s :
  forall d r, Py.span_digits s = (d, r) ->
              s = d ++ r /\ all_digits d = true.
Proof.
  induction s as [|c s IH]; simpl; intros d r H.
  - injection H as <- <-. now split.
  - destruct (Py.isdigit c) eqn:Hc.
    + destruct (Py.span_digits s) as [d' t]. injection H as <- <-.
      destruct (IH d' t eq_refl) as [-> Hd]. simpl. rewrite Hc. now split.
    + injection H as <- <-. now split.
Qed.

Lemma span_line_app b r :
  Py.contains "010" b = false -> line_ends r = true ->
  Py.span_line (b ++ r) = (b, r).
Proof.
  intros Hb Hr. induction b as [|c b IH]; simpl in *.
  - destruct r as [|x r]; [reflexivity|]. simpl in *. now rewrite Hr.
  - destruct (Ascii.eqb c "010"); [discriminate|]. now rewrite (IH Hb).
Qed.

Lemma span_line_spec s :
  forall b r, Py.span_line s = (b, r) ->
              s = b ++ r /\ Py.contains "010" b = false /\ line_ends r = true.
Proof.
  induction s as [|c s IH]; simpl; intros b r H.
  - injection H as <- <-. now repeat split.
  - destruct (Ascii.eqb c "010") eqn:Hc.
    + injection H as <- <-. simpl. now rewrite Hc.
    + destruct (Py.span_line s) as [b' t]. injection H as <- <-.
      destruct (IH b' t eq_refl) as (-> & Hb & Ht). simpl. now rewrite Hc.
Qed.

Lemma digits_dot_app d r :
  digit_group d = true ->
  Py.digits_dot (d ++ String "." r) = Some (d, r).
Proof.
  intros Hd. unfold Py.digits_dot.
  rewrite span_digits_app; [|now destruct d|reflexivity].
  destruct d; [discriminate|reflexivity].
Qed.

Lemma digits_dot_spec s d r :
  Py.digits_dot s = Some (d, r) ->
  s = d ++ String "." r /\ digit_group d = true.
Proof.
  unfold Py.digits_dot. intros H.
  destruct (Py.span_digits s) as [d' t] eqn:E.
  apply span_digits_spec in E as [-> Hd].
  destruct d' as [|c d']; [discriminate|]. destruct t as [|x t]; [discriminate|].
  destruct (Ascii.eqb_spec x "."); [subst|discriminate].
  injection H as <- <-. now split.
Qed.

(** A digit group that is followed by a letter is not followed by a dot. *)
Lemma digits_dot_letter d l r :
  all_digits d = true -> Py.isalpha_ascii l = true ->
  Py.digits_dot (d ++ String l r) = None.
Proof.
  intros Hd Hl. unfold Py.digits_dot.
  rewrite span_digits_app; [|assumption|].
  - destruct d; [reflexivity|]. now rewrite (isalpha_neq l "." Hl eq_refl).
  - simpl. now rewrite (isalpha_not_digit l Hl).
Qed.

Lemma at_end_cases s :
  Py.at_end s = true -> s = EmptyString \/ s = String "010" EmptyString.
Proof.
  destruct s as [|c [|]]; simpl; try discriminate; auto.
  intros H. apply Ascii.eqb_eq in H. subst. auto.
Qed.

Lemma app_assoc_string (a b c : string) : (a ++ b) ++ c = a ++ b ++ c.
Proof. induction a; simpl; congruence. Qed.

Lemma app_nil_r_string (a : string) : a ++ EmptyString = a.
Proof. induction a; simpl; congruence. Qed.

(** What a match of the pattern says about the text. *)
Lemma re_match_version_spec s m p :
  Py.re_match_version s = Some (m, p) ->
  exists d1 d2 d3 l body tail,
    s = m ++ p ++ tail /\ m = d1 ++ "." ++ d2 ++ "." ++ d3 /\
    p = String l body /\
    digit_group d1 = true /\ digit_group d2 = true /\ digit_group d3 = true /\
    Py.isalpha_ascii l = true /\ Py.contains "010" body = false /\
    (tail = EmptyString \/ tail = String "010" EmptyString).
Proof.
  unfold Py.re_match_version. intros H.
  destruct (Py.digits_dot s) as [[d1 r1]|] eqn:E1; [|discriminate].
  destruct (Py.digits_dot r1) as [[d2 r2]|] eqn:E2; [|discriminate].
  destruct (Py.span_digits r2) as [d3 r3] eqn:E3.
  destruct d3 as [|c3 d3]; [discriminate|].
  destruct r3 as [|l r3]; [discriminate|].
  destruct (Py.isalpha_ascii l) eqn:Hl; [|discriminate].
  destruct (Py.span_line r3) as [body r4] eqn:E4.
  destruct (Py.at_end r4) eqn:E5; [|discriminate].
  injection H as <- <-.
  apply digits_dot_spec in E1 as [-> H1]. apply digits_dot_spec in E2 as [-> H2].
  apply span_digits_spec in E3 as [-> H3].
  apply span_line_spec in E4 as (-> & Hb & _).
  exists d1, d2, (String c3 d3), l, body, r4.
  repeat split; auto using at_end_cases.
  rewrite !app_assoc_string. simpl. rewrite !app_assoc_string. reflexivity.
Qed.

(** Every text of the pattern's shape is matched, with these groups. *)
Lemma re_match_version_complete d1 d2 d3 l body tail :
  digit_group d1 = true -> digit_group d2 = true -> digit_group d3 = true ->
  Py.isalpha_ascii l = true -> Py.contains "010" body = false ->
  Py.at_end tail = true ->
  Py.re_match_version (d1 ++ "." ++ d2 ++ "." ++ d3 ++ String l (body ++ tail))
  = Some (d1 ++ "." ++ d2 ++ "." ++ d3, String l body).
Proof.
  intros H1 H2 H3 Hl Hb Ht. unfold Py.re_match_version.
  change (d1 ++ "." ++ d2 ++ "." ++ d3 ++ String l (body ++ tail))
    with (d1 ++ String "." (d2 ++ String "." (d3 ++ String l (body ++ tail)))).
  rewrite (digits_dot_app d1 _ H1), (digits_dot_app d2 _ H2).
  rewrite span_digits_app;
    [|now destruct d3|simpl; now rewrite (isalpha_not_digit l Hl)].
  destruct d3 as [|c3 d3]; [discriminate|]. rewrite Hl.
  rewrite span_line_app; [now rewrite Ht|assumption|].
  destruct (at_end_cases tail Ht) as [->| ->]; reflexivity.
Qed.

(** A line feed that is not the last character defeats the pattern. *)
Lemma re_match_version_line_feed d1 d2 d3 l body x rest :
  digit_group d1 = true -> digit_group d2 = true -> digit_group d3 = true ->
  Py.isalpha_ascii l = true -> Py.contains "010" body = false ->
  Py.re_match_version
    (d1 ++ "." ++ d2 ++ "." ++ d3 ++ String l (body ++ String "010" (String x rest)))
  = None.
Proof.
  intros H1 H2 H3 Hl Hb. unfold Py.re_match_version.
  change (d1 ++ "." ++ d2 ++ "." ++ d3 ++ String l (body ++ String "010" (String x rest)))
    with (d1 ++ String "." (d2 ++ String "." (d3 ++ String l (body ++ String "010" (String x rest))))).
  rewrite (digits_dot_app d1 _ H1), (digits_dot_app d2 _ H2).
  rewrite span_digits_app;
    [|now destruct d3|simpl; now rewrite (isalpha_not_digit l Hl)].
  destruct d3 as [|c3 d3]; [discriminate|]. rewrite Hl.
  rewrite span_line_app; [reflexivity|assumption|reflexivity].
Qed.

(** The first entry of [findall] is a digit group. *)
Lemma re_findall_digits_head s :
  forall h t, Py.re_findall_digits s = h :: t -> digit_group h = true.
Proof.
  induction s as [|c r IH]; simpl; intros h t H; [discriminate|].
  destruct (Py.isdigit c) eqn:Hc; [|eauto].
  destruct r as [|c' r']; [injection H as <- <-; simpl; now rewrite Hc|].
  destruct (Py.isdigit c') eqn:Hc'.
  - destruct (Py.re_findall_digits (String c' r')) as [|h' t'] eqn:E.
    + injection H as <- <-. simpl. now rewrite Hc.
    + injection H as <- <-. specialize (IH h' t' eq_refl).
      destruct h'; [discriminate|]. simpl in *. now rewrite Hc.
  - injection H as <- <-. simpl. now rewrite Hc.
Qed.

End TextFacts.

(** ** Construction *)

Section Construction.

Lemma pad_spec l : pad l = (l ++ repeat "0"%string (3 - List.length l)%nat)%list.
Proof.
  unfold pad. destruct l as [|a [|b [|c l]]]; simpl; try reflexivity.
  now rewrite app_nil_r.
Qed.

(** The [while] loop has stopped on its own condition after three rounds. *)
Lemma pad_loop_exit l : (List.length (pad l) <? 3)%nat = false.
Proof.
  rewrite pad_spec. apply Nat.ltb_ge. rewrite length_app, repeat_length. lia.
Qed.

Lemma pad_three m :
  exists e0 e1 e2 rest, pad (Py.split "." m) = e0 :: e1 :: e2 :: rest.
Proof.
  pose proof (pad_loop_exit (Py.split "." m)) as H. apply Nat.ltb_ge in H.
  destruct (pad (Py.split "." m)) as [|e0 [|e1 [|e2 rest]]]; simpl in H;
    try lia. eauto.
Qed.

Lemma parse_main_version_spec m e0 e1 e2 rest :
  pad (Py.split "." m) = e0 :: e1 :: e2 :: rest ->
  _parse_main_version m =
  match Py.int e0, Py.int e1, Py.int e2 with
  | Ok a, Ok b, Ok c => Ok (a, b, c)
  | _, _, _ => Raise (InvalidVersionFormat m)
  end.
Proof.
  intros E. unfold _parse_main_version. rewrite E. unfold Py.getitem.
  cbn [nth_error Py.bind].
  destruct (Py.int e0) as [a|x0] eqn:I0; cbn [Py.bind];
    [|destruct (int_raises _ _ I0) as [msg ->]; reflexivity].
  destruct (Py.int e1) as [b|x1] eqn:I1; cbn [Py.bind];
    [|destruct (int_raises _ _ I1) as [msg ->]; reflexivity].
  destruct (Py.int e2) as [c|x2] eqn:I2; cbn [Py.bind];
    [reflexivity|destruct (int_raises _ _ I2) as [msg ->]; reflexivity].
Qed.

(** The splitter always returns, with a core that holds no hyphen. *)
Lemma split_version_ok s :
  exists m p, _split_version s = Ok (m, p) /\ Py.contains "-" m = false.
Proof.
  unfold _split_version.
  destruct (Py.contains "-" (Py.lstrip "v" s)) eqn:Hd.
  - destruct (split1_contains _ _ Hd) as (a & b & E & Ha & _).
    rewrite E. simpl. eauto.
  - destruct (Py.re_match_version (Py.lstrip "v" s)) as [[m p]|] eqn:E.
    + exists m, (Some p). split; [reflexivity|].
      apply re_match_version_spec in E as (_ & _ & _ & _ & _ & tail & E & _).
      rewrite E, contains_app in Hd. now apply orb_false_iff in Hd.
    + eauto.
Qed.

(** The loop body fails only on a first digit run beyond the limit of
    [int], with the error of [int]. *)
Lemma parse_part_spec segment :
  parse_part segment =
  if run_within_limit segment then Ok (part_of segment)
  else Raise (ValueError Py.digit_limit_message).
Proof.
  unfold parse_part, part_of, run_within_limit.
  destruct (Py.re_findall_digits segment) as [|h t] eqn:E; [reflexivity|].
  unfold Py.getitem. cbn [nth_error Py.bind].
  pose proof (re_findall_digits_head _ _ _ E) as Hh.
  destruct (within_limit h) eqn:L.
  - now rewrite (int_digit_group h Hh L).
  - now rewrite (int_digit_group_beyond h Hh L).
Qed.

Lemma parse_loop_spec parts :
  forall acc,
    parse_loop parts acc =
    if forallb run_within_limit parts
    then Ok (acc ++ map part_of parts)%list
    else Raise (ValueError Py.digit_limit_message).
Proof.
  induction parts as [|p parts IH]; intros acc; cbn [parse_loop forallb map].
  - now rewrite app_nil_r.
  - rewrite parse_part_spec. destruct (run_within_limit p); [|reflexivity].
    cbn [Py.bind andb]. rewrite IH, <- app_assoc. reflexivity.
Qed.

(** The pre-release parser returns exactly when the first digit run of
    every segment is within the limit of [int]. *)
Lemma parse_pre_release_parts_spec p :
  _parse_pre_release_parts p =
  if tail_ok p then Ok (parts_of p)
  else Raise (ValueError Py.digit_limit_message).
Proof.
  destruct p as [p|]; [|reflexivity].
  unfold _parse_pre_release_parts, tail_ok, tail_within_limit, parts_of.
  rewrite parse_loop_spec.
  now destruct (forallb run_within_limit (Py.split "." p)).
Qed.

(** Construction is the splitter, then the core parser on its first
    component, then the pre-release parser on its second. *)
Lemma init_spec s m p :
  _split_version s = Ok (m, p) ->
  __init__ s =
  match _parse_main_version m with
  | Ok (a, b, c) =>
      if tail_ok p then Ok (mk s a b c p (parts_of p))
      else Raise (ValueError Py.digit_limit_message)
  | Raise e => Raise e
  end.
Proof.
  intros E. unfold __init__. rewrite E. cbn [Py.bind].
  destruct (_parse_main_version m) as [[[a b] c]|e]; cbn [Py.bind];
    [|reflexivity].
  rewrite parse_pre_release_parts_spec. now destruct (tail_ok p).
Qed.

(** What a successful construction has gone through. *)
Lemma init_ok_inv s v :
  __init__ s = Ok v ->
  exists m p a b c,
    _split_version s = Ok (m, p) /\ _parse_main_version m = Ok (a, b, c) /\
    tail_ok p = true /\ v = mk s a b c p (parts_of p).
Proof.
  destruct (split_version_ok s) as (m & p & E & _).
  rewrite (init_spec s m p E).
  destruct (_parse_main_version m) as [[[a b] c]|e] eqn:EM; [|discriminate].
  destruct (tail_ok p) eqn:ET; [|discriminate].
  intros H. injection H as <-. exists m, p, a, b, c. auto.
Qed.

(** In a constructed instance the parts are those of the pre-release text. *)
Lemma init_parts s v :
  __init__ s = Ok v -> pre_release_parts v = parts_of (pre_release v).
Proof.
  intros H. destruct (init_ok_inv s v H) as (m & p & a & b & c & _ & _ & _ & ->).
  reflexivity.
Qed.

Lemma sample_instances :
  __init__ "1.0.0-rc.7" = Ok rc_7 /\ __init__ "1.0.0-rc.a" = Ok rc_a /\
  __init__ "1.0.0-rc.2" = Ok rc_2 /\ __init__ "1.0.0-rc.10" = Ok rc_10 /\
  __init__ "1.0.0-3.x" = Ok three_x /\ __init__ "1.0.0-03.y" = Ok zero_three_y /\
  __init__ "1.0.0-rc" = Ok rc_only /\ __init__ "1.0.0-rc.1.x" = Ok rc_1_x /\
  __init__ "1.0.0-alpha" = Ok v_alpha /\ __init__ "1.0.0-beta" = Ok v_beta /\
  __init__ "1.0.0" = Ok v_release.
Proof. repeat split. Qed.

End Construction.

(** ** Precedence as a comparison of keys

    The ordering of the class compares, in effect, a key of each instance:
    the three numbers, then the pre-release identifiers, where a numeric
    identifier is an integer, a textual one is its text, and an instance
    without a pre-release tail comes last. *)

Section Orders.

Lemma Z_order : is_order Z.compare.
Proof.
  split.
  - apply Z.compare_eq.
  - apply Z.compare_refl.
  - intros x y. apply Z.compare_antisym.
  - intros x y z. rewrite !Z.compare_lt_iff. lia.
Qed.

Lemma ascii_order : is_order Ascii.compare.
Proof.
  split.
  - apply Ascii.compare_eq_iff.
  - intros x. unfold Ascii.compare. apply N.compare_refl.
  - intros x y. unfold Ascii.compare. apply N.compare_antisym.
  - intros x y z. unfold Ascii.compare. rewrite !N.compare_lt_iff. lia.
Qed.

Lemma string_order : is_order String.compare.
Proof.
  destruct ascii_order as [aeq arefl aopp atrans]. split.
  - apply String.compare_eq_iff.
  - induction x as [|c x IH]; simpl; [reflexivity|]. now rewrite arefl.
  - intros x y. apply String.compare_antisym.
  - induction x as [|a x IH]; intros [|b y] [|c z]; simpl; try congruence.
    destruct (Ascii.compare a b) eqn:E1; try discriminate;
      destruct (Ascii.compare b c) eqn:E2; try discriminate.
    + apply aeq in E1, E2. subst. rewrite arefl. apply IH.
    + apply aeq in E1. subst. now rewrite E2.
    + apply aeq in E2. subst. now rewrite E1.
    + now rewrite (atrans _ _ _ E1 E2).
Qed.

Lemma sum_order {A B : Type} (ca : A -> A -> comparison)
  (cb : B -> B -> comparison) :
  is_order ca -> is_order cb -> is_order (sum_cmp ca cb).
Proof.
  intros [aeq arefl aopp atrans] [beq brefl bopp btrans]. split.
  - intros [a|a] [b|b]; simpl; try discriminate; intros H; f_equal; auto.
  - intros [a|a]; simpl; auto.
  - intros [a|a] [b|b]; simpl; auto.
  - intros [a|a] [b|b] [c|c]; simpl; try congruence; eauto.
Qed.

Lemma list_order {A : Type} (c : A -> A -> comparison) :
  is_order c -> is_order (list_cmp c).
Proof.
  intros [ceq crefl copp ctrans]. split.
  - induction x as [|a x IH]; intros [|b y]; simpl; try discriminate; auto.
    destruct (c a b) eqn:E; try discriminate.
    intros H. apply ceq in E. apply IH in H. congruence.
  - induction x as [|a x IH]; simpl; [reflexivity|]. now rewrite crefl.
  - induction x as [|a x IH]; intros [|b y]; simpl; auto.
    rewrite (copp a b). destruct (c a b); simpl; auto.
  - induction x as [|a x IH]; intros [|b y] [|d z]; simpl; try congruence.
    destruct (c a b) eqn:E1; try discriminate;
      destruct (c b d) eqn:E2; try discriminate.
    + apply ceq in E1, E2. subst. rewrite crefl. apply IH.
    + apply ceq in E1. subst. now rewrite E2.
    + apply ceq in E2. subst. now rewrite E1.
    + now rewrite (ctrans _ _ _ E1 E2).
Qed.

Lemma tail_order {A : Type} (c : A -> A -> comparison) :
  is_order c -> is_order (tail_cmp c).
Proof.
  intros [ceq crefl copp ctrans]. split.
  - intros [a|] [b|]; simpl; try discriminate; intros H; f_equal; auto.
  - intros [a|]; simpl; auto.
  - intros [a|] [b|]; simpl; auto.
  - intros [a|] [b|] [d|]; simpl; try congruence; eauto.
Qed.

Lemma pair_order {A B : Type} (ca : A -> A -> comparison)
  (cb : B -> B -> comparison) :
  is_order ca -> is_order cb -> is_order (pair_cmp ca cb).
Proof.
  intros [aeq arefl aopp atrans] [beq brefl bopp btrans]. split.
  - intros [a x] [b y]. unfold pair_cmp. simpl.
    destruct (ca a b) eqn:E; try discriminate.
    intros H. apply aeq in E. apply beq in H. congruence.
  - intros [a x]. unfold pair_cmp. simpl. now rewrite arefl.
  - intros [a x] [b y]. unfold pair_cmp. simpl. rewrite (aopp a b).
    destruct (ca a b); simpl; auto.
  - intros [a x] [b y] [d z]. unfold pair_cmp. simpl.
    destruct (ca a b) eqn:E1; try discriminate;
      destruct (ca b d) eqn:E2; try discriminate.
    + apply aeq in E1, E2. subst. rewrite arefl. apply btrans.
    + apply aeq in E1. subst. now rewrite E2.
    + apply aeq in E2. subst. now rewrite E1.
    + now rewrite (atrans _ _ _ E1 E2).
Qed.

Lemma ident_order : is_order ident_cmp.
Proof. apply sum_order; [apply Z_order|apply string_order]. Qed.

Lemma key_order : is_order key_cmp.
Proof.
  repeat apply pair_order; try apply Z_order.
  apply tail_order, list_order, ident_order.
Qed.

End Orders.

(** ** The comparator computes the comparison of keys *)

Section Comparator.

Lemma part_of_well_typed s : well_typed (part_of s) = true.
Proof. unfold part_of. now destruct (Py.re_findall_digits s). Qed.

Lemma init_well_formed s v : __init__ s = Ok v -> well_formed v = true.
Proof.
  intros H. unfold well_formed. rewrite (init_parts s v H).
  destruct (pre_release v) as [p|]; simpl; [|reflexivity].
  apply forallb_forall. intros x Hx. apply in_map_iff in Hx as (y & <- & _).
  apply part_of_well_typed.
Qed.

Lemma compare_single_cmp p q :
  well_typed p = true -> well_typed q = true ->
  _compare_single_pre_release_part p q
  = Ok (verdict (ident_cmp (ident_of p) (ident_of q))).
Proof.
  destruct p as [[[|] [n|vp]] sp], q as [[[|] [m|vq]] sq]; simpl;
    try discriminate; intros _ _; try reflexivity.
  - unfold Py.gt. simpl. destruct (Z.compare_spec n m) as [->|H|H]; simpl.
    + now rewrite Z.ltb_irrefl.
    + apply Z.ltb_lt in H. now rewrite H.
    + assert ((n <? m) = false) as -> by (apply Z.ltb_ge; lia).
      apply Z.ltb_lt in H. now rewrite H.
  - unfold String.ltb. rewrite (String.compare_antisym sq sp).
    now destruct (String.compare sp sq).
  - unfold String.ltb. rewrite (String.compare_antisym sq sp).
    now destruct (String.compare sp sq).
  - unfold String.ltb. rewrite (String.compare_antisym sq sp).
    now destruct (String.compare sp sq).
  - unfold String.ltb. rewrite (String.compare_antisym sq sp).
    now destruct (String.compare sp sq).
Qed.

Lemma skipn_cons_nth {A : Type} (l : list A) :
  forall i x, nth_error l i = Some x -> skipn i l = x :: skipn (S i) l.
Proof.
  induction l as [|a l IH]; intros [|i] x H; simpl in *; try discriminate.
  - now injection H as <-.
  - now apply IH.
Qed.

(** The indexed loop, started at round [i] with the rounds left up to
    [max_parts], is the recursion on what remains of the two lists. *)
Lemma compare_loop_lex self other a b :
  pre_release_parts self = Some a -> pre_release_parts other = Some b ->
  forall steps i,
    (i + steps = Nat.max (List.length a) (List.length b))%nat ->
    compare_loop self other i steps = lex_parts (skipn i a) (skipn i b).
Proof.
  intros Ha Hb. induction steps as [|steps IH]; intros i Hi; simpl.
  - rewrite !skipn_all2 by lia. reflexivity.
  - rewrite Ha, Hb. simpl.
    destruct (Nat.leb_spec (List.length a) i) as [Hla|Hla].
    + rewrite (skipn_all2 a) by lia.
      destruct (skipn i b) as [|y b'] eqn:E; [|reflexivity].
      apply (f_equal (@List.length part)) in E.
      rewrite length_skipn in E. simpl in E. lia.
    + destruct (Nat.leb_spec (List.length b) i) as [Hlb|Hlb].
      * rewrite (skipn_all2 b) by lia.
        destruct (skipn i a) as [|x a'] eqn:E; [|reflexivity].
        apply (f_equal (@List.length part)) in E.
        rewrite length_skipn in E. simpl in E. lia.
      * unfold Py.getitem.
        destruct (nth_error a i) as [x|] eqn:Ex;
          [|apply nth_error_None in Ex; lia].
        destruct (nth_error b i) as [y|] eqn:Ey;
          [|apply nth_error_None in Ey; lia].
        rewrite (skipn_cons_nth a i x Ex), (skipn_cons_nth b i y Ey). simpl.
        destruct (_compare_single_pre_release_part x y) as [[r|]|e];
          simpl; try reflexivity.
        apply IH. lia.
Qed.

Lemma compare_pre_release_parts_lex self other a b :
  pre_release_parts self = Some a -> pre_release_parts other = Some b ->
  _compare_pre_release_parts self other = lex_parts a b.
Proof.
  intros Ha Hb. unfold _compare_pre_release_parts. rewrite Ha, Hb. simpl.
  now rewrite (compare_loop_lex self other a b Ha Hb _ 0%nat).
Qed.

Lemma lex_parts_cmp a :
  forall b, forallb well_typed a = true -> forallb well_typed b = true ->
  lex_parts a b
  = Ok (is_lt (list_cmp ident_cmp (map ident_of a) (map ident_of b))).
Proof.
  induction a as [|x a IH]; intros [|y b] Ha Hb; simpl; try reflexivity.
  simpl in Ha, Hb. apply andb_true_iff in Ha as [Hx Ha].
  apply andb_true_iff in Hb as [Hy Hb].
  rewrite (compare_single_cmp x y Hx Hy). simpl.
  destruct (ident_cmp (ident_of x) (ident_of y)); simpl; auto.
Qed.

(** [__lt__] returns, and says whether the key of [self] is below that of
    [other]. *)
Lemma lt_key a b :
  well_formed a = true -> well_formed b = true ->
  __lt__ a b = Ok (is_lt (key_cmp (key_of a) (key_of b))).
Proof.
  unfold well_formed, __lt__, key_cmp, key_of, pair_cmp. simpl. intros Ha Hb.
  destruct (Z.compare_spec (major a) (major b)) as [E1|E1|E1]; simpl;
    [|rewrite (proj2 (Z.eqb_neq _ _)) by lia; simpl; f_equal; lia..].
  rewrite (proj2 (Z.eqb_eq _ _) E1). simpl.
  destruct (Z.compare_spec (minor a) (minor b)) as [E2|E2|E2]; simpl;
    [|rewrite (proj2 (Z.eqb_neq _ _)) by lia; simpl; f_equal; lia..].
  rewrite (proj2 (Z.eqb_eq _ _) E2). simpl.
  destruct (Z.compare_spec (patch a) (patch b)) as [E3|E3|E3]; simpl;
    [|rewrite (proj2 (Z.eqb_neq _ _)) by lia; simpl; f_equal; lia..].
  rewrite (proj2 (Z.eqb_eq _ _) E3). simpl.
  unfold _compare_pre_release, _has_pre_release.
  destruct (pre_release_parts a) as [pa|] eqn:Ea,
           (pre_release_parts b) as [pb|] eqn:Eb; simpl; try reflexivity.
  rewrite (compare_pre_release_parts_lex a b pa pb Ea Eb).
  now apply lex_parts_cmp.
Qed.

End Comparator.

(** ** Inputs of a known shape *)

Section Shapes.

Lemma all_digits_without c d :
  Py.isdigit c = false -> all_digits d = true -> Py.contains c d = false.
Proof.
  intros Hc. induction d as [|x d IH]; simpl; [reflexivity|].
  intros H. apply andb_true_iff in H as [Hx Hd].
  rewrite (isdigit_neq x c Hx Hc). auto.
Qed.

Lemma digit_group_all_digits d : digit_group d = true -> all_digits d = true.
Proof. now destruct d. Qed.

Lemma digit_group_without c d :
  Py.isdigit c = false -> digit_group d = true -> Py.contains c d = false.
Proof. intros Hc Hd. now apply all_digits_without, digit_group_all_digits. Qed.

Lemma lstrip_digit_group d r :
  digit_group d = true -> Py.lstrip "v" (d ++ r) = d ++ r.
Proof.
  destruct d as [|c d]; [discriminate|]. simpl. intros H.
  apply andb_true_iff in H as [Hc _].
  now rewrite (isdigit_neq c "v" Hc eq_refl).
Qed.

Lemma lstrip_app_other c m x r :
  Ascii.eqb x c = false ->
  Py.lstrip c (m ++ String x r) = Py.lstrip c m ++ String x r.
Proof.
  intros Hx. induction m as [|y m IH]; simpl.
  - now rewrite Hx.
  - now destruct (Ascii.eqb y c).
Qed.

Lemma split1_app c a b :
  Py.contains c a = false -> Py.split1 c (a ++ String c b) = [a; b].
Proof.
  induction a as [|x a IH]; simpl.
  - now rewrite Ascii.eqb_refl.
  - destruct (Ascii.eqb x c); [discriminate|]. intros H. now rewrite (IH H).
Qed.

Lemma split_whole c a : Py.contains c a = false -> Py.split c a = [a].
Proof.
  induction a as [|x a IH]; simpl; [reflexivity|].
  destruct (Ascii.eqb x c); [discriminate|]. intros H. now rewrite (IH H).
Qed.

Lemma split_app c a b :
  Py.contains c a = false ->
  Py.split c (a ++ String c b) = a :: Py.split c b.
Proof.
  induction a as [|x a IH]; simpl.
  - now rewrite Ascii.eqb_refl.
  - destruct (Ascii.eqb x c); [discriminate|]. intros H. now rewrite (IH H).
Qed.

(** The splitter ignores any number of leading [v]. *)
Lemma split_version_strip n s :
  _split_version (replicate n "v" ++ s) = _split_version s.
Proof. unfold _split_version. now rewrite lstrip_replicate. Qed.

(** Rule 1: a first hyphen cuts the text. *)
Lemma split_version_dash m T :
  Py.contains "-" (Py.lstrip "v" m) = false ->
  _split_version (m ++ String "-" T) = Ok (Py.lstrip "v" m, Some T).
Proof.
  intros H. unfold _split_version.
  rewrite (lstrip_app_other "v" m "-" T eq_refl).
  rewrite contains_app. simpl. rewrite orb_true_r.
  now rewrite (split1_app "-" _ T H).
Qed.

(** Rule 3 is taken exactly when there is no hyphen and no match. *)
Lemma split_version_plain s m :
  _split_version s = Ok (m, None) <->
  m = Py.lstrip "v" s /\ Py.contains "-" m = false
  /\ Py.re_match_version m = None.
Proof.
  unfold _split_version. split.
  - destruct (Py.contains "-" (Py.lstrip "v" s)) eqn:Hd.
    + destruct (Py.unpack2 _) as [[x y]|]; simpl; discriminate.
    + destruct (Py.re_match_version _) as [[x y]|] eqn:E; [discriminate|].
      intros H. injection H as <-. auto.
  - intros (-> & Hd & E). now rewrite Hd, E.
Qed.

Lemma re_match_version_one d :
  all_digits d = true -> Py.re_match_version d = None.
Proof.
  intros Hd. unfold Py.re_match_version, Py.digits_dot.
  rewrite <- (app_nil_r_string d) at 1.
  rewrite span_digits_app; [|assumption|reflexivity]. now destruct d.
Qed.

Lemma re_match_version_two d1 d2 :
  digit_group d1 = true -> all_digits d2 = true ->
  Py.re_match_version (d1 ++ String "." d2) = None.
Proof.
  intros H1 H2. unfold Py.re_match_version.
  rewrite (digits_dot_app d1 d2 H1). unfold Py.digits_dot.
  rewrite <- (app_nil_r_string d2) at 1.
  rewrite span_digits_app; [|assumption|reflexivity]. now destruct d2.
Qed.

Lemma re_match_version_three d1 d2 d3 :
  digit_group d1 = true -> digit_group d2 = true -> all_digits d3 = true ->
  Py.re_match_version (d1 ++ String "." (d2 ++ String "." d3)) = None.
Proof.
  intros H1 H2 H3. unfold Py.re_match_version.
  rewrite (digits_dot_app d1 _ H1), (digits_dot_app d2 _ H2).
  rewrite <- (app_nil_r_string d3) at 1.
  rewrite span_digits_app; [|assumption|reflexivity]. now destruct d3.
Qed.

(** One or two digit groups and then a letter: no match either. *)
Lemma re_match_version_one_letter d l r :
  all_digits d = true -> Py.isalpha_ascii l = true ->
  Py.re_match_version (d ++ String l r) = None.
Proof.
  intros Hd Hl. unfold Py.re_match_version.
  now rewrite (digits_dot_letter d l r Hd Hl).
Qed.

Lemma re_match_version_two_letter d1 d2 l r :
  digit_group d1 = true -> all_digits d2 = true ->
  Py.isalpha_ascii l = true ->
  Py.re_match_version (d1 ++ String "." (d2 ++ String l r)) = None.
Proof.
  intros H1 H2 Hl. unfold Py.re_match_version.
  now rewrite (digits_dot_app d1 _ H1), (digits_dot_letter d2 l r H2 Hl).
Qed.

Lemma parse_main_version_three d1 d2 d3 :
  digit_group d1 = true -> digit_group d2 = true -> digit_group d3 = true ->
  within_limit d1 = true -> within_limit d2 = true ->
  within_limit d3 = true ->
  _parse_main_version (d1 ++ String "." (d2 ++ String "." d3))
  = Ok (decimal 0 d1, decimal 0 d2, decimal 0 d3).
Proof.
  intros H1 H2 H3 L1 L2 L3.
  rewrite (parse_main_version_spec _ d1 d2 d3 []).
  - now rewrite !int_digit_group by assumption.
  - rewrite !split_app, split_whole by (now apply digit_group_without).
    reflexivity.
Qed.

Lemma parse_main_version_two d1 d2 :
  digit_group d1 = true -> digit_group d2 = true ->
  within_limit d1 = true -> within_limit d2 = true ->
  _parse_main_version (d1 ++ String "." d2)
  = Ok (decimal 0 d1, decimal 0 d2, 0).
Proof.
  intros H1 H2 L1 L2.
  rewrite (parse_main_version_spec _ d1 d2 "0" []).
  - now rewrite !int_digit_group by assumption.
  - rewrite !split_app, split_whole by (now apply digit_group_without).
    reflexivity.
Qed.

Lemma parse_main_version_one d1 :
  digit_group d1 = true -> within_limit d1 = true ->
  _parse_main_version d1 = Ok (decimal 0 d1, 0, 0).
Proof.
  intros H1 L1.
  rewrite (parse_main_version_spec _ d1 "0" "0" []).
  - now rewrite !int_digit_group by assumption.
  - rewrite split_whole by (now apply digit_group_without). reflexivity.
Qed.

End Shapes.

(** ** Equality *)

Section Equality.

Lemma eq_attr_spec a b : eq_attr a b = true <-> a = b.
Proof.
  destruct a as [x|], b as [y|]; simpl; split; try congruence.
  - intros H. apply String.eqb_eq in H. congruence.
  - intros H. injection H as ->. apply String.eqb_refl.
Qed.

Lemma eq_spec a b :
  __eq__ a b = true <->
  major a = major b /\ minor a = minor b /\ patch a = patch b
  /\ pre_release a = pre_release b.
Proof.
  unfold __eq__. rewrite !andb_true_iff, !Z.eqb_eq, eq_attr_spec. tauto.
Qed.

(** Equal constructed instances have the same key. *)
Lemma eq_key sa sb a b :
  __init__ sa = Ok a -> __init__ sb = Ok b -> __eq__ a b = true ->
  key_of a = key_of b.
Proof.
  intros Ha Hb H. apply eq_spec in H as (H1 & H2 & H3 & H4).
  unfold key_of. rewrite (init_parts sa a Ha), (init_parts sb b Hb).
  congruence.
Qed.

End Equality.

(** C4. [__eq__] holds exactly when major, minor and patch match and the raw
    pre-release texts are the same text (or both absent); its result does not
    depend on the parsed parts of either side.  The instances built from
    "1.0.0-alpha" twice are equal, those built from "1.0.0-rc.1" and "1.0.0"
    are not. *)
Theorem eq_is_triple_and_raw_text :
  (forall a b : t,
      __eq__ a b = true <->
      major a = major b /\ minor a = minor b /\ patch a = patch b
      /\ pre_release a = pre_release b) /\
  (forall (a b : t) (pa pb : option (list part)),
      __eq__ (with_parts a pa) (with_parts b pb) = __eq__ a b) /\
  (exists a b, __init__ "1.0.0-alpha" = Ok a /\ __init__ "1.0.0-alpha" = Ok b
               /\ __eq__ a b = true) /\
  (exists a b, __init__ "1.0.0-rc.1" = Ok a /\ __init__ "1.0.0" = Ok b
               /\ __eq__ a b = false).
Proof.
  split; [exact eq_spec|]. split; [reflexivity|].
  split; do 2 eexists; (split; [vm_compute; reflexivity|]);
    (split; [vm_compute; reflexivity|]); reflexivity.
Qed.

Lemma eq_is_triple_and_raw_text_witness :
  __eq__ (mk "1.0" 1 0 0 None None) (mk "1" 1 0 0 None None) = true <->
  1 = 1 /\ 0 = 0 /\ 0 = 0 /\ @None string = None.
Proof.
  exact (proj1 eq_is_triple_and_raw_text
           (mk "1.0" 1 0 0 None None) (mk "1" 1 0 0 None None)).
Defined.

(** ** Missing components and the leading [v] *)

(** C8. The core parser pads the dot-split sequence on the right with "0" up
    to three entries, so one digit group X gives the triple (X, 0, 0) and two
    groups X.Y give (X, Y, 0), both without a pre-release tail, for groups of
    at most 4300 digits, which is as many as [int] converts; "1", "1.0" and
    "1.0.0" all give (1, 0, 0) without a tail and are pairwise equal. *)
Theorem missing_components_default_to_zero :
  (forall l : list string,
      pad l = (l ++ repeat "0"%string (3 - List.length l)%nat)%list) /\
  (forall X, digit_group X = true -> within_limit X = true ->
      __init__ X = Ok (mk X (decimal 0 X) 0 0 None None)) /\
  (forall X Y, digit_group X = true -> digit_group Y = true ->
      within_limit X = true -> within_limit Y = true ->
      __init__ (X ++ "." ++ Y)
      = Ok (mk (X ++ "." ++ Y) (decimal 0 X) (decimal 0 Y) 0 None None)) /\
  __init__ "1" = Ok (mk "1" 1 0 0 None None) /\
  __init__ "1.0" = Ok (mk "1.0" 1 0 0 None None) /\
  __init__ "1.0.0" = Ok (mk "1.0.0" 1 0 0 None None) /\
  (forall a b,
      In a [mk "1" 1 0 0 None None; mk "1.0" 1 0 0 None None;
            mk "1.0.0" 1 0 0 None None] ->
      In b [mk "1" 1 0 0 None None; mk "1.0" 1 0 0 None None;
            mk "1.0.0" 1 0 0 None None] ->
      __eq__ a b = true).
Proof.
  split; [exact pad_spec|]. split; [|split].
  - intros X HX LX.
    assert (_split_version X = Ok (X, None)) as E.
    { apply split_version_plain.
      pose proof (lstrip_digit_group X EmptyString HX) as HS.
      rewrite app_nil_r_string in HS. rewrite HS.
      split; [reflexivity|]. split.
      - now apply digit_group_without.
      - now apply re_match_version_one, digit_group_all_digits. }
    rewrite (init_spec X X None E).
    now rewrite (parse_main_version_one X HX LX).
  - intros X Y HX HY LX LY. change (X ++ "." ++ Y) with (X ++ String "." Y).
    assert (_split_version (X ++ String "." Y) = Ok (X ++ String "." Y, None))
      as E.
    { apply split_version_plain. rewrite (lstrip_digit_group X _ HX).
      split; [reflexivity|]. split.
      - rewrite contains_app. simpl.
        now rewrite !digit_group_without.
      - now apply re_match_version_two, digit_group_all_digits. }
    rewrite (init_spec _ _ None E).
    now rewrite (parse_main_version_two X Y HX HY LX LY).
  - repeat split; try reflexivity.
    intros a b Ha Hb. simpl in Ha, Hb.
    repeat (destruct Ha as [<-|Ha]; [|]); try contradiction;
      repeat (destruct Hb as [<-|Hb]; [|]); try contradiction; reflexivity.
Qed.

Lemma missing_components_default_to_zero_witness :
  __init__ "7" = Ok (mk "7" 7 0 0 None None) /\
  __init__ "7.12" = Ok (mk "7.12" 7 12 0 None None).
Proof.
  split.
  - exact (proj1 (proj2 missing_components_default_to_zero) "7"
             eq_refl eq_refl).
  - exact (proj1 (proj2 (proj2 missing_components_default_to_zero))
             "7" "12" eq_refl eq_refl eq_refl eq_refl).
Defined.

(** C9, as the claim states it, fails: with two leading [v] the core is
    still "1.0.0" and construction succeeds. *)
Lemma double_v_is_stripped :
  _split_version "vv1.0.0" = Ok ("1.0.0", None) /\
  __init__ "vv1.0.0" = Ok (mk "vv1.0.0" 1 0 0 None None) /\
  ~ (exists e, __init__ "vv1.0.0" = Raise e).
Proof.
  split; [reflexivity|]. split; [reflexivity|]. intros [e H]. discriminate H.
Qed.

(** C9, amended.  Before splitting, construction strips every leading [v],
    however many there are: the splitter returns the same core and tail with
    or without them, and construction has the same outcome, an equal
    instance on success and the same error on failure.  The instances built
    from "v1.0.0" and from "vv1.0.0" are both equal to that of "1.0.0". *)
Theorem leading_v_all_stripped :
  (forall n s, _split_version (replicate n "v" ++ s) = _split_version s) /\
  (forall n s,
      match __init__ (replicate n "v" ++ s), __init__ s with
      | Ok a, Ok b =>
          __eq__ a b = true /\ pre_release_parts a = pre_release_parts b
      | Raise e1, Raise e2 => e1 = e2
      | _, _ => False
      end) /\
  (exists a b, __init__ "v1.0.0" = Ok a /\ __init__ "1.0.0" = Ok b
               /\ __eq__ a b = true) /\
  (exists a b, __init__ "vv1.0.0" = Ok a /\ __init__ "1.0.0" = Ok b
               /\ __eq__ a b = true).
Proof.
  split; [exact split_version_strip|]. split.
  - intros n s. destruct (split_version_ok s) as (m & p & E & _).
    pose proof E as E'. rewrite <- (split_version_strip n s) in E'.
    rewrite (init_spec _ m p E'), (init_spec s m p E).
    destruct (_parse_main_version m) as [[[a b] c]|e]; [|reflexivity].
    destruct (tail_ok p); [|reflexivity].
    split; [apply eq_spec; simpl; auto|reflexivity].
  - split; do 2 eexists; (split; [vm_compute; reflexivity|]);
      (split; [vm_compute; reflexivity|]); reflexivity.
Qed.

(** ** Release and pre-release *)

Section Release.

Lemma lt_same_triple a b :
  major a = major b -> minor a = minor b -> patch a = patch b ->
  __lt__ a b = _compare_pre_release a b.
Proof.
  intros H1 H2 H3. unfold __lt__. now rewrite H1, H2, H3, !Z.eqb_refl.
Qed.

Lemma split_three X Y Z :
  digit_group X = true -> digit_group Y = true -> digit_group Z = true ->
  _split_version (X ++ "." ++ Y ++ "." ++ Z)
  = Ok (X ++ String "." (Y ++ String "." Z), None).
Proof.
  intros HX HY HZ.
  change (X ++ "." ++ Y ++ "." ++ Z) with (X ++ String "." (Y ++ String "." Z)).
  apply split_version_plain. rewrite (lstrip_digit_group X _ HX).
  split; [reflexivity|]. split.
  - rewrite contains_app. simpl. rewrite contains_app. simpl.
    now rewrite !digit_group_without.
  - now apply re_match_version_three, digit_group_all_digits.
Qed.

Lemma split_three_dash X Y Z T :
  digit_group X = true -> digit_group Y = true -> digit_group Z = true ->
  _split_version (X ++ "." ++ Y ++ "." ++ Z ++ "-" ++ T)
  = Ok (X ++ String "." (Y ++ String "." Z), Some T).
Proof.
  intros HX HY HZ.
  assert (X ++ "." ++ Y ++ "." ++ Z ++ "-" ++ T
          = (X ++ String "." (Y ++ String "." Z)) ++ String "-" T) as EQ.
  { rewrite app_assoc_string. simpl. rewrite app_assoc_string. reflexivity. }
  rewrite EQ, split_version_dash; rewrite (lstrip_digit_group X _ HX).
  - reflexivity.
  - rewrite contains_app. simpl. rewrite contains_app. simpl.
    now rewrite !digit_group_without.
Qed.

Lemma init_three X Y Z :
  digit_group X = true -> digit_group Y = true -> digit_group Z = true ->
  within_limit X = true -> within_limit Y = true -> within_limit Z = true ->
  __init__ (X ++ "." ++ Y ++ "." ++ Z)
  = Ok (mk (X ++ "." ++ Y ++ "." ++ Z)
           (decimal 0 X) (decimal 0 Y) (decimal 0 Z) None None).
Proof.
  intros HX HY HZ LX LY LZ.
  rewrite (init_spec _ _ None (split_three X Y Z HX HY HZ)).
  now rewrite (parse_main_version_three X Y Z HX HY HZ LX LY LZ).
Qed.

Lemma init_three_dash X Y Z T :
  digit_group X = true -> digit_group Y = true -> digit_group Z = true ->
  within_limit X = true -> within_limit Y = true -> within_limit Z = true ->
  tail_within_limit T = true ->
  __init__ (X ++ "." ++ Y ++ "." ++ Z ++ "-" ++ T)
  = Ok (mk (X ++ "." ++ Y ++ "." ++ Z ++ "-" ++ T)
           (decimal 0 X) (decimal 0 Y) (decimal 0 Z)
           (Some T) (parts_of (Some T))).
Proof.
  intros HX HY HZ LX LY LZ LT.
  rewrite (init_spec _ _ _ (split_three_dash X Y Z T HX HY HZ)).
  rewrite (parse_main_version_three X Y Z HX HY HZ LX LY LZ).
  cbn [tail_ok]. now rewrite LT.
Qed.

End Release.

(** C2. Of two constructed instances with the same major, minor and patch
    of which exactly one has a pre-release tail, the one with the tail is
    less than the other, and not the other way round.  In particular, for
    digit groups X, Y, Z and any tail T, the instance of "X.Y.Z-T" is less
    than that of "X.Y.Z" whenever both are constructed; and both are
    constructed when the groups, and the first digit run of each segment of
    T, have at most 4300 digits, which is as many as [int] converts. *)
Theorem pre_release_before_release :
  (forall sa sb a b,
      __init__ sa = Ok a -> __init__ sb = Ok b ->
      major a = major b -> minor a = minor b -> patch a = patch b ->
      pre_release a <> None -> pre_release b = None ->
      __lt__ a b = Ok true /\ __lt__ b a = Ok false) /\
  (forall X Y Z T a b,
      digit_group X = true -> digit_group Y = true -> digit_group Z = true ->
      __init__ (X ++ "." ++ Y ++ "." ++ Z ++ "-" ++ T) = Ok a ->
      __init__ (X ++ "." ++ Y ++ "." ++ Z) = Ok b ->
      __lt__ a b = Ok true /\ __lt__ b a = Ok false) /\
  (forall X Y Z T,
      digit_group X = true -> digit_group Y = true -> digit_group Z = true ->
      within_limit X = true -> within_limit Y = true ->
      within_limit Z = true -> tail_within_limit T = true ->
      exists a b,
        __init__ (X ++ "." ++ Y ++ "." ++ Z ++ "-" ++ T) = Ok a /\
        __init__ (X ++ "." ++ Y ++ "." ++ Z) = Ok b /\
        __lt__ a b = Ok true /\ __lt__ b a = Ok false).
Proof.
  assert (forall sa sb a b,
      __init__ sa = Ok a -> __init__ sb = Ok b ->
      major a = major b -> minor a = minor b -> patch a = patch b ->
      pre_release a <> None -> pre_release b = None ->
      __lt__ a b = Ok true /\ __lt__ b a = Ok false) as general.
  { intros sa sb a b Ha Hb H1 H2 H3 Hpa Hpb.
    rewrite (lt_same_triple a b H1 H2 H3).
    rewrite (lt_same_triple b a (eq_sym H1) (eq_sym H2) (eq_sym H3)).
    unfold _compare_pre_release, _has_pre_release.
    rewrite (init_parts sa a Ha), (init_parts sb b Hb), Hpb.
    destruct (pre_release a); [split; reflexivity|contradiction]. }
  assert (forall X Y Z T a b,
      digit_group X = true -> digit_group Y = true -> digit_group Z = true ->
      __init__ (X ++ "." ++ Y ++ "." ++ Z ++ "-" ++ T) = Ok a ->
      __init__ (X ++ "." ++ Y ++ "." ++ Z) = Ok b ->
      __lt__ a b = Ok true /\ __lt__ b a = Ok false) as particular.
  { intros X Y Z T a b HX HY HZ Ha Hb.
    destruct (init_ok_inv _ a Ha) as (ma & pa & a1 & a2 & a3 & Ea & Ma & _ & Va).
    destruct (init_ok_inv _ b Hb) as (mb & pb & b1 & b2 & b3 & Eb & Mb & _ & Vb).
    rewrite (split_three_dash X Y Z T HX HY HZ) in Ea. injection Ea as <- <-.
    rewrite (split_three X Y Z HX HY HZ) in Eb. injection Eb as <- <-.
    rewrite Ma in Mb. injection Mb as <- <- <-.
    apply (general _ _ a b Ha Hb); subst a b; simpl; congruence. }
  split; [exact general|]. split; [exact particular|].
  intros X Y Z T HX HY HZ LX LY LZ LT. do 2 eexists.
  split; [now apply init_three_dash|]. split; [now apply init_three|].
  apply (particular X Y Z T); try assumption.
  - now apply init_three_dash.
  - now apply init_three.
Qed.

Lemma pre_release_before_release_witness :
  (__lt__ (mk "1.0.0-rc.1" 1 0 0 (Some "rc.1") (parts_of (Some "rc.1")))
          (mk "1.0.0" 1 0 0 None None) = Ok true /\
   __lt__ (mk "1.0.0" 1 0 0 None None)
          (mk "1.0.0-rc.1" 1 0 0 (Some "rc.1") (parts_of (Some "rc.1")))
   = Ok false) /\
  (__lt__ (mk "3.1.4-x-y" 3 1 4 (Some "x-y") (parts_of (Some "x-y")))
          (mk "3.1.4" 3 1 4 None None) = Ok true /\
   __lt__ (mk "3.1.4" 3 1 4 None None)
          (mk "3.1.4-x-y" 3 1 4 (Some "x-y") (parts_of (Some "x-y")))
   = Ok false) /\
  (exists a b,
      __init__ ("2" ++ "." ++ "10" ++ "." ++ "3" ++ "-" ++ "beta.2") = Ok a /\
      __init__ ("2" ++ "." ++ "10" ++ "." ++ "3") = Ok b /\
      __lt__ a b = Ok true /\ __lt__ b a = Ok false).
Proof.
  split; [|split].
  - apply (proj1 pre_release_before_release "1.0.0-rc.1" "1.0.0");
      try reflexivity.
    discriminate.
  - apply (proj1 (proj2 pre_release_before_release) "3" "1" "4" "x-y");
      reflexivity.
  - apply (proj2 (proj2 pre_release_before_release) "2" "10" "3" "beta.2");
      reflexivity.
Defined.

(** ** Comparing identifier sequences *)

Section Sequences.

Lemma ties_sym p q : ties p q -> ties q p.
Proof.
  unfold ties.
  destruct p as [[[|] [n|vp]] sp], q as [[[|] [m|vq]] sq]; simpl;
    try discriminate; unfold Py.gt; simpl.
  - destruct (n <? m) eqn:E1; [discriminate|].
    destruct (m <? n) eqn:E2; [discriminate|]. reflexivity.
  - destruct (String.ltb vp vq) eqn:E1; [discriminate|].
    destruct (String.ltb vq vp) eqn:E2; [discriminate|]. reflexivity.
  - destruct (String.ltb sp sq) eqn:E1; [discriminate|].
    destruct (String.ltb sq sp) eqn:E2; [discriminate|]. reflexivity.
  - destruct (String.ltb sp sq) eqn:E1; [discriminate|].
    destruct (String.ltb sq sp) eqn:E2; [discriminate|]. reflexivity.
  - destruct (String.ltb sp sq) eqn:E1; [discriminate|].
    destruct (String.ltb sq sp) eqn:E2; [discriminate|]. reflexivity.
  - destruct (String.ltb sp sq) eqn:E1; [discriminate|].
    destruct (String.ltb sq sp) eqn:E2; [discriminate|]. reflexivity.
Qed.

Lemma ties_all_sym ta tb : Forall2 ties ta tb -> Forall2 ties tb ta.
Proof. induction 1; constructor; auto using ties_sym. Qed.

(** Tied positions are passed over. *)
Lemma lex_parts_tied ta tb :
  Forall2 ties ta tb ->
  forall ra rb, lex_parts (ta ++ ra) (tb ++ rb) = lex_parts ra rb.
Proof.
  induction 1 as [|p q ta tb Hpq _ IH]; intros ra rb; simpl; [reflexivity|].
  unfold ties in Hpq. rewrite Hpq. simpl. apply IH.
Qed.

Lemma lt_same_triple_parts a b pa pb :
  same_triple a b ->
  pre_release_parts a = Some pa -> pre_release_parts b = Some pb ->
  __lt__ a b = _compare_pre_release_parts a b.
Proof.
  intros (H1 & H2 & H3) Ha Hb. rewrite (lt_same_triple a b H1 H2 H3).
  unfold _compare_pre_release, _has_pre_release. now rewrite Ha, Hb.
Qed.

Lemma same_triple_sym a b : same_triple a b -> same_triple b a.
Proof. unfold same_triple. intuition congruence. Qed.

(** One round of the loop at a position where the parts tie: the loop goes
    on with the next position. *)
Lemma compare_loop_tie self other pa pb i k x y :
  pre_release_parts self = Some pa -> pre_release_parts other = Some pb ->
  nth_error pa i = Some x -> nth_error pb i = Some y -> ties x y ->
  compare_loop self other i (S k) = compare_loop self other (S i) k.
Proof.
  intros Ha Hb Hx Hy Hxy. simpl. rewrite Ha, Hb. simpl.
  assert (nth_error pa i <> None) as Hla by congruence.
  assert (nth_error pb i <> None) as Hlb by congruence.
  apply nth_error_Some in Hla, Hlb.
  destruct (Nat.leb_spec (List.length pa) i); [lia|].
  destruct (Nat.leb_spec (List.length pb) i); [lia|].
  unfold Py.getitem. rewrite Hx, Hy. simpl.
  unfold ties in Hxy. now rewrite Hxy.
Qed.

End Sequences.

(** C3. When both instances have pre-release parts, the positions before
    some position tie, and at that position the part of [a] is numeric and
    the part of [b] is textual, then [a] compares less than [b] by its
    pre-release parts, whatever the number and the texts are, and [b] does
    not compare less than [a]; with the same major, minor and patch this is
    the result of [__lt__].  The instance of "1.0.0-1" is less than that of
    "1.0.0-alpha". *)
Theorem numeric_part_before_textual :
  (forall a b ta tb vx sx ra vy sy rb,
      pre_release_parts a = Some (ta ++ (true, vx, sx) :: ra)%list ->
      pre_release_parts b = Some (tb ++ (false, vy, sy) :: rb)%list ->
      Forall2 ties ta tb ->
      _compare_single_pre_release_part (true, vx, sx) (false, vy, sy)
      = Ok (Some true) /\
      _compare_pre_release_parts a b = Ok true /\
      _compare_pre_release_parts b a = Ok false /\
      (same_triple a b -> __lt__ a b = Ok true /\ __lt__ b a = Ok false)) /\
  (exists a b, __init__ "1.0.0-1" = Ok a /\ __init__ "1.0.0-alpha" = Ok b
               /\ __lt__ a b = Ok true /\ __lt__ b a = Ok false).
Proof.
  split.
  - intros a b ta tb vx sx ra vy sy rb Ha Hb Ht.
    assert (_compare_pre_release_parts a b = Ok true) as Hab.
    { rewrite (compare_pre_release_parts_lex a b _ _ Ha Hb).
      now rewrite (lex_parts_tied ta tb Ht). }
    assert (_compare_pre_release_parts b a = Ok false) as Hba.
    { rewrite (compare_pre_release_parts_lex b a _ _ Hb Ha).
      now rewrite (lex_parts_tied tb ta (ties_all_sym _ _ Ht)). }
    repeat split; try assumption.
    + now rewrite (lt_same_triple_parts a b _ _ H Ha Hb).
    + now rewrite (lt_same_triple_parts b a _ _ (same_triple_sym _ _ H) Hb Ha).
  - do 2 eexists. split; [vm_compute; reflexivity|].
    split; [vm_compute; reflexivity|]. split; reflexivity.
Qed.

Lemma numeric_part_before_textual_witness :
  _compare_single_pre_release_part (true, VInt 7, "7") (false, VStr "a", "a")
  = Ok (Some true) /\
  _compare_pre_release_parts rc_7 rc_a = Ok true /\
  _compare_pre_release_parts rc_a rc_7 = Ok false /\
  __lt__ rc_7 rc_a = Ok true /\ __lt__ rc_a rc_7 = Ok false.
Proof.
  destruct (proj1 numeric_part_before_textual rc_7 rc_a
              [(false, VStr "rc", "rc")] [(false, VStr "rc", "rc")]
              (VInt 7) "7" [] (VStr "a") "a" [])
    as (H1 & H2 & H3 & H4).
  - reflexivity.
  - reflexivity.
  - constructor; [reflexivity|constructor].
  - destruct H4 as [H5 H6]; [repeat split|]. repeat split; assumption.
Defined.

(** C5. Two numeric parts are compared by their integers, whatever their
    texts: the smaller integer is less, and equal integers tie, in which case
    the loop goes on with the next position.  So when the positions before
    some position tie and the integers there are n < m, the first instance
    compares less by its pre-release parts, and by [__lt__] when major, minor
    and patch agree.  The instance of "1.0.0-2" is less than that of
    "1.0.0-10", although the text "10" is below the text "2". *)
Theorem numeric_parts_by_value :
  (forall n s m t,
      _compare_single_pre_release_part (true, VInt n, s) (true, VInt m, t)
      = Ok (verdict (n ?= m))) /\
  (forall a b pa pb i k n s t,
      pre_release_parts a = Some pa -> pre_release_parts b = Some pb ->
      nth_error pa i = Some (true, VInt n, s) ->
      nth_error pb i = Some (true, VInt n, t) ->
      compare_loop a b i (S k) = compare_loop a b (S i) k) /\
  (forall a b ta tb n s ra m t rb,
      pre_release_parts a = Some (ta ++ (true, VInt n, s) :: ra)%list ->
      pre_release_parts b = Some (tb ++ (true, VInt m, t) :: rb)%list ->
      Forall2 ties ta tb -> n < m ->
      _compare_pre_release_parts a b = Ok true /\
      _compare_pre_release_parts b a = Ok false /\
      (same_triple a b -> __lt__ a b = Ok true /\ __lt__ b a = Ok false)) /\
  (exists a b, __init__ "1.0.0-2" = Ok a /\ __init__ "1.0.0-10" = Ok b
               /\ __lt__ a b = Ok true /\ __lt__ b a = Ok false) /\
  String.ltb "10" "2" = true.
Proof.
  assert (forall n s m t,
      _compare_single_pre_release_part (true, VInt n, s) (true, VInt m, t)
      = Ok (verdict (n ?= m))) as single.
  { intros n s m t.
    exact (compare_single_cmp (true, VInt n, s) (true, VInt m, t)
             eq_refl eq_refl). }
  split; [exact single|]. split; [|split; [|split; [|reflexivity]]].
  - intros a b pa pb i k n s t Ha Hb Hx Hy.
    apply (compare_loop_tie a b pa pb i k _ _ Ha Hb Hx Hy).
    unfold ties. now rewrite single, Z.compare_refl.
  - intros a b ta tb n s ra m t rb Ha Hb Ht Hnm.
    assert (_compare_pre_release_parts a b = Ok true) as Hab.
    { rewrite (compare_pre_release_parts_lex a b _ _ Ha Hb).
      rewrite (lex_parts_tied ta tb Ht). cbn [lex_parts]. rewrite single.
      apply Z.compare_lt_iff in Hnm. now rewrite Hnm. }
    assert (_compare_pre_release_parts b a = Ok false) as Hba.
    { rewrite (compare_pre_release_parts_lex b a _ _ Hb Ha).
      rewrite (lex_parts_tied tb ta (ties_all_sym _ _ Ht)).
      cbn [lex_parts]. rewrite single.
      apply Z.compare_gt_iff in Hnm. now rewrite Hnm. }
    repeat split; try assumption.
    + now rewrite (lt_same_triple_parts a b _ _ H Ha Hb).
    + now rewrite (lt_same_triple_parts b a _ _ (same_triple_sym _ _ H) Hb Ha).
  - do 2 eexists. split; [vm_compute; reflexivity|].
    split; [vm_compute; reflexivity|]. split; reflexivity.
Qed.

Lemma numeric_parts_by_value_witness :
  compare_loop three_x zero_three_y 0 2 = compare_loop three_x zero_three_y 1 1
  /\ _compare_pre_release_parts rc_2 rc_10 = Ok true
  /\ _compare_pre_release_parts rc_10 rc_2 = Ok false
  /\ __lt__ rc_2 rc_10 = Ok true /\ __lt__ rc_10 rc_2 = Ok false.
Proof.
  split.
  - apply (proj1 (proj2 numeric_parts_by_value) three_x zero_three_y
             [(true, VInt 3, "3"); (false, VStr "x", "x")]
             [(true, VInt 3, "03"); (false, VStr "y", "y")]
             0%nat 1%nat 3 "3" "03"); reflexivity.
  - destruct (proj1 (proj2 (proj2 numeric_parts_by_value)) rc_2 rc_10
                [(false, VStr "rc", "rc")] [(false, VStr "rc", "rc")]
                2 "2" [] 10 "10" [])
      as (H1 & H2 & H3).
    + reflexivity.
    + reflexivity.
    + constructor; [reflexivity|constructor].
    + reflexivity.
    + destruct H3 as [H4 H5]; [repeat split|]. repeat split; assumption.
Defined.

(** C6. When both instances have pre-release parts and every part of the
    first ties with the part of the second at the same position, the first
    compares less by its pre-release parts exactly when the second has more
    parts; with as many parts neither compares less than the other.  With the
    same major, minor and patch this is the result of [__lt__].  The instance
    of "1.0.0-alpha" is less than that of "1.0.0-alpha.1". *)
Theorem shorter_sequence_first :
  (forall a b pa tb rb,
      pre_release_parts a = Some pa ->
      pre_release_parts b = Some (tb ++ rb)%list ->
      Forall2 ties pa tb ->
      _compare_pre_release_parts a b
      = Ok (match rb with [] => false | _ :: _ => true end) /\
      _compare_pre_release_parts b a = Ok false /\
      (same_triple a b ->
       __lt__ a b = Ok (match rb with [] => false | _ :: _ => true end) /\
       __lt__ b a = Ok false)) /\
  (exists a b, __init__ "1.0.0-alpha" = Ok a /\ __init__ "1.0.0-alpha.1" = Ok b
               /\ __lt__ a b = Ok true /\ __lt__ b a = Ok false).
Proof.
  split.
  - intros a b pa tb rb Ha Hb Ht.
    assert (_compare_pre_release_parts a b
            = Ok (match rb with [] => false | _ :: _ => true end)) as Hab.
    { rewrite (compare_pre_release_parts_lex a b _ _ Ha Hb).
      rewrite <- (app_nil_r pa) at 1.
      rewrite (lex_parts_tied pa tb Ht). now destruct rb. }
    assert (_compare_pre_release_parts b a = Ok false) as Hba.
    { rewrite (compare_pre_release_parts_lex b a _ _ Hb Ha).
      rewrite <- (app_nil_r pa) at 1.
      rewrite (lex_parts_tied tb pa (ties_all_sym _ _ Ht)). now destruct rb. }
    repeat split; try assumption.
    + now rewrite (lt_same_triple_parts a b _ _ H Ha Hb).
    + now rewrite (lt_same_triple_parts b a _ _ (same_triple_sym _ _ H) Hb Ha).
  - do 2 eexists. split; [vm_compute; reflexivity|].
    split; [vm_compute; reflexivity|]. split; reflexivity.
Qed.

Lemma shorter_sequence_first_witness :
  _compare_pre_release_parts rc_only rc_1_x = Ok true /\
  _compare_pre_release_parts rc_1_x rc_only = Ok false /\
  __lt__ rc_only rc_1_x = Ok true /\ __lt__ rc_1_x rc_only = Ok false.
Proof.
  destruct (proj1 shorter_sequence_first rc_only rc_1_x
              [(false, VStr "rc", "rc")] [(false, VStr "rc", "rc")]
              [(true, VInt 1, "1"); (false, VStr "x", "x")])
    as (H1 & H2 & H3).
  - reflexivity.
  - reflexivity.
  - constructor; [reflexivity|constructor].
  - destruct H3 as [H4 H5]; [repeat split|]. repeat split; assumption.
Defined.

(** ** Failure of construction *)

Section Failure.

Lemma parseable_spec e :
  Py.contains "-" e = false ->
  parseable e = match Py.int e with Ok _ => true | Raise _ => false end.
Proof.
  intros He. unfold parseable.
  destruct (Py.int e) as [n|x] eqn:E; [|reflexivity].
  apply Z.leb_le. apply (int_literal_nonneg e n He). now apply int_ok_literal.
Qed.

Lemma all_space_int_chars s : Py.all_space s = true -> int_chars s = true.
Proof.
  induction s as [|c r IH]; simpl; [reflexivity|]. intros H.
  apply andb_true_iff in H as [Hc Hr]. unfold int_char.
  rewrite Hc, (IH Hr), !orb_true_r. reflexivity.
Qed.

(** A text that [int] accepts is made of digits, white space, signs and
    underscores, and holds a digit. *)
Lemma int_digits_chars s :
  forall acc b n,
    Py.int_digits acc b s = Some n ->
    int_chars s = true /\ (b = true \/ has_digit s = true).
Proof.
  induction s as [|c r IH]; cbn [Py.int_digits int_chars has_digit];
    intros acc b n H.
  - destruct b; [auto|discriminate].
  - unfold int_char. destruct (Py.isdigit c) eqn:Hc.
    + destruct (IH _ _ _ H) as [Hr _]. rewrite Hr. auto.
    + destruct (Ascii.eqb c "_") eqn:Hu.
      * destruct b; [|discriminate].
        destruct (IH _ _ _ H) as [Hr _]. rewrite Hr, !orb_true_r. auto.
      * destruct (Py.isspace c) eqn:Hs; [|discriminate].
        destruct b; [|discriminate]. cbn [andb] in H.
        destruct (Py.all_space r) eqn:Ha; [|discriminate].
        rewrite (all_space_int_chars r Ha). auto.
Qed.

Lemma skip_space_chars s :
  int_chars (Py.skip_space s) = true -> has_digit (Py.skip_space s) = true ->
  int_chars s = true /\ has_digit s = true.
Proof.
  induction s as [|c r IH]; cbn [Py.skip_space]; [auto|].
  destruct (Py.isspace c) eqn:Hs; [|auto].
  intros H1 H2. destruct (IH H1 H2) as [Hr Hd].
  cbn [int_chars has_digit]. unfold int_char.
  rewrite Hs, Hr, Hd, !orb_true_r. auto.
Qed.

Lemma int_literal_chars s n :
  Py.int_literal s = Some n -> int_chars s = true /\ has_digit s = true.
Proof.
  unfold Py.int_literal. intros H.
  assert (int_chars (Py.skip_space s) = true
          /\ has_digit (Py.skip_space s) = true) as [A B];
    [|now apply skip_space_chars].
  destruct (Py.skip_space s) as [|c r]; [discriminate|].
  destruct (Ascii.eqb c "+") eqn:Hp.
  - destruct (int_digits_chars r _ _ _ H) as [Hr [F|Hd]]; [discriminate|].
    cbn [int_chars has_digit]. unfold int_char.
    rewrite Hp, Hr, Hd, !orb_true_r. auto.
  - destruct (Ascii.eqb c "-") eqn:Hm.
    + destruct (Py.int_digits 0 false r) as [k|] eqn:Hk; [|discriminate].
      destruct (int_digits_chars r _ _ _ Hk) as [Hr [F|Hd]]; [discriminate|].
      cbn [int_chars has_digit]. unfold int_char.
      rewrite Hm, Hr, Hd, !orb_true_r. auto.
    + destruct (int_digits_chars (String c r) _ _ _ H) as [Hr [F|Hd]];
        [discriminate|auto].
Qed.

Lemma pad_without d l :
  Py.contains d "0" = false ->
  Forall (fun p => Py.contains d p = false) l ->
  Forall (fun p => Py.contains d p = false) (pad l).
Proof.
  intros H0 Hl. rewrite pad_spec. apply Forall_app. split; [assumption|].
  apply Forall_forall. intros x Hx. apply repeat_spec in Hx. now subst.
Qed.

(** The three entries that are converted hold no hyphen. *)
Lemma core_entries_three s m p :
  _split_version s = Ok (m, p) ->
  exists e0 e1 e2 rest,
    pad (Py.split "." m) = e0 :: e1 :: e2 :: rest /\
    core_entries m = [e0; e1; e2] /\
    Py.contains "-" e0 = false /\ Py.contains "-" e1 = false /\
    Py.contains "-" e2 = false.
Proof.
  intros E. destruct (split_version_ok s) as (m' & p' & E' & Hd).
  rewrite E in E'. injection E' as <- <-.
  destruct (pad_three m) as (e0 & e1 & e2 & rest & EP).
  exists e0, e1, e2, rest. split; [assumption|].
  split; [unfold core_entries; now rewrite EP|].
  pose proof (pad_without "-" _ eq_refl (split_without "-" "." m Hd)) as HF.
  rewrite EP in HF. inversion HF as [|? ? H0 HF1]; subst.
  inversion HF1 as [|? ? H1 HF2]; subst.
  inversion HF2 as [|? ? H2 _]; subst. auto.
Qed.

End Failure.

(** C7. Where construction fails.  The splitter always returns.
    Construction fails with the invalid-format error of the core exactly
    when one of the three entries of the dot-split and padded core is not
    parseable by [int] as a number that is not negative; a parseable entry
    is made of digits, white space, signs and underscores and holds a digit,
    and a digit group is parseable exactly when it has at most 4300 digits.
    On success major, minor and patch are not negative, and the comparison
    of two constructed instances always returns.  The pre-release parser,
    however, calls [int] without the guard of the core parser: it raises the
    error of [int] when the first digit run of a segment has more than 4300
    digits, so that construction of "1.0.0-" followed by 4301 digits fails
    with an error that is not the invalid-format error, although its three
    core entries are parseable. *)
Theorem construction_failures :
  (forall s, exists m p,
      _split_version s = Ok (m, p) /\
      List.length (core_entries m) = 3%nat /\
      ((exists x, In x (core_entries m) /\ parseable x = false) <->
       __init__ s = Raise (InvalidVersionFormat m)) /\
      ((forall x, In x (core_entries m) -> parseable x = true) ->
       if tail_ok p then exists v, __init__ s = Ok v
       else __init__ s = Raise (ValueError Py.digit_limit_message)) /\
      (forall v, __init__ s = Ok v ->
                 0 <= major v /\ 0 <= minor v /\ 0 <= patch v)) /\
  (forall p,
      _parse_pre_release_parts p =
      if tail_ok p then Ok (parts_of p)
      else Raise (ValueError Py.digit_limit_message)) /\
  (forall sa sb a b, __init__ sa = Ok a -> __init__ sb = Ok b ->
                     exists r, __lt__ a b = Ok r) /\
  (forall x, parseable x = true -> int_chars x = true /\ has_digit x = true) /\
  (forall x, digit_group x = true -> parseable x = within_limit x) /\
  __init__ "abc.def.ghi" = Raise (InvalidVersionFormat "abc.def.ghi") /\
  (Forall (fun x => parseable x = true) (core_entries "1.0.0") /\
   _split_version ("1.0.0-" ++ replicate 4301 "1")
   = Ok ("1.0.0", Some (replicate 4301 "1")) /\
   __init__ ("1.0.0-" ++ replicate 4301 "1")
   = Raise (ValueError Py.digit_limit_message) /\
   forall m, ValueError Py.digit_limit_message <> InvalidVersionFormat m).
Proof.
  assert (forall m, ValueError Py.digit_limit_message <> InvalidVersionFormat m)
    as Hdiff.
  { intros m H. inversion H. }
  split; [|split; [|split; [|split; [|split; [|split]]]]].
  - intros s. destruct (split_version_ok s) as (m & p & E & _).
    exists m, p. split; [assumption|].
    destruct (core_entries_three s m p E)
      as (e0 & e1 & e2 & rest & EP & EC & H0 & H1 & H2).
    rewrite EC. split; [reflexivity|].
    rewrite (init_spec s m p E), (parse_main_version_spec m _ _ _ _ EP).
    pose proof (parseable_spec e0 H0) as P0.
    pose proof (parseable_spec e1 H1) as P1.
    pose proof (parseable_spec e2 H2) as P2.
    destruct (Py.int e0) as [a|x0] eqn:I0.
    + destruct (Py.int e1) as [b|x1] eqn:I1.
      * destruct (Py.int e2) as [c|x2] eqn:I2.
        -- split; [|split].
           ++ split.
              ** intros (x & [<-|[<-|[<-|[]]]] & Hx); congruence.
              ** destruct (tail_ok p); [discriminate|].
                 intros H. inversion H.
           ++ intros _. destruct (tail_ok p); eauto.
           ++ destruct (tail_ok p); intros v Hv; [|discriminate].
              injection Hv as <-. simpl.
              repeat split;
                [apply (int_literal_nonneg e0)|apply (int_literal_nonneg e1)
                |apply (int_literal_nonneg e2)];
                try assumption; now apply int_ok_literal.
        -- split; [|split].
           ++ split; [reflexivity|]. intros _. exists e2.
              split; [simpl; auto|assumption].
           ++ intros H. rewrite (H e2) in P2; [discriminate|simpl; auto].
           ++ intros v Hv. discriminate Hv.
      * split; [|split].
        -- split; [reflexivity|]. intros _. exists e1.
           split; [simpl; auto|assumption].
        -- intros H. rewrite (H e1) in P1; [discriminate|simpl; auto].
        -- intros v Hv. discriminate Hv.
    + split; [|split].
      * split; [reflexivity|]. intros _. exists e0.
        split; [simpl; auto|assumption].
      * intros H. rewrite (H e0) in P0; [discriminate|simpl; auto].
      * intros v Hv. discriminate Hv.
  - exact parse_pre_release_parts_spec.
  - intros sa sb a b Ha Hb. eexists.
    apply lt_key; eapply init_well_formed; eassumption.
  - intros x Hx. unfold parseable in Hx.
    destruct (Py.int x) as [n|e] eqn:I; [|discriminate].
    apply (int_literal_chars x n). now apply int_ok_literal.
  - intros x Hx. rewrite (parseable_spec x (digit_group_without "-" x eq_refl Hx)).
    destruct (within_limit x) eqn:L.
    + now rewrite (int_digit_group x Hx L).
    + now rewrite (int_digit_group_beyond x Hx L).
  - reflexivity.
  - split; [repeat constructor|]. split; [vm_compute; reflexivity|].
    split; [vm_compute; reflexivity|exact Hdiff].
Qed.

Lemma construction_failures_witness :
  (exists r, __lt__ rc_7 rc_a = Ok r) /\
  (int_chars "+1_0 " = true /\ has_digit "+1_0 " = true) /\
  parseable "0042" = within_limit "0042" /\
  (exists m p,
      _split_version "1.x-rc" = Ok (m, p) /\
      List.length (core_entries m) = 3%nat /\
      ((exists x, In x (core_entries m) /\ parseable x = false) <->
       __init__ "1.x-rc" = Raise (InvalidVersionFormat m)) /\
      ((forall x, In x (core_entries m) -> parseable x = true) ->
       if tail_ok p then exists v, __init__ "1.x-rc" = Ok v
       else __init__ "1.x-rc" = Raise (ValueError Py.digit_limit_message)) /\
      (forall v, __init__ "1.x-rc" = Ok v ->
                 0 <= major v /\ 0 <= minor v /\ 0 <= patch v)).
Proof.
  split; [|split; [|split]].
  - apply (proj1 (proj2 (proj2 construction_failures))
             "1.0.0-rc.7" "1.0.0-rc.a" rc_7 rc_a); reflexivity.
  - apply (proj1 (proj2 (proj2 (proj2 construction_failures))) "+1_0 ").
    reflexivity.
  - apply (proj1 (proj2 (proj2 (proj2 (proj2 construction_failures)))) "0042").
    reflexivity.
  - exact (proj1 construction_failures "1.x-rc").
Defined.

(** ** The letter suffix without a separator *)

Section LetterSuffix.

Lemma split_version_no_dash s :
  Py.contains "-" (Py.lstrip "v" s) = false ->
  _split_version s =
  match Py.re_match_version (Py.lstrip "v" s) with
  | Some (m, p) => Ok (m, Some p)
  | None => Ok (Py.lstrip "v" s, None)
  end.
Proof. intros H. unfold _split_version. now rewrite H. Qed.

Lemma letter_without_dash l : Py.isalpha_ascii l = true -> Ascii.eqb l "-" = false.
Proof. intros H. now apply isalpha_neq. Qed.

Lemma three_groups_without_dash d1 d2 d3 l r :
  digit_group d1 = true -> digit_group d2 = true -> digit_group d3 = true ->
  Py.isalpha_ascii l = true -> Py.contains "-" r = false ->
  Py.contains "-" (d1 ++ "." ++ d2 ++ "." ++ d3 ++ String l r) = false.
Proof.
  intros H1 H2 H3 Hl Hr.
  change (d1 ++ "." ++ d2 ++ "." ++ d3 ++ String l r)
    with (d1 ++ String "." (d2 ++ String "." (d3 ++ String l r))).
  rewrite contains_app. simpl. rewrite contains_app. simpl.
  rewrite contains_app. simpl.
  rewrite !digit_group_without by first [reflexivity|assumption].
  now rewrite (letter_without_dash l Hl), Hr.
Qed.

(** Three digit groups and then a character that is no letter of the
    pattern: no match. *)
Lemma re_match_version_other d1 d2 d3 l rest :
  digit_group d1 = true -> digit_group d2 = true -> digit_group d3 = true ->
  Py.isalpha_ascii l = false -> Py.isdigit l = false ->
  Py.re_match_version (d1 ++ "." ++ d2 ++ "." ++ d3 ++ String l rest) = None.
Proof.
  intros H1 H2 H3 Hl Hg. unfold Py.re_match_version.
  change (d1 ++ "." ++ d2 ++ "." ++ d3 ++ String l rest)
    with (d1 ++ String "." (d2 ++ String "." (d3 ++ String l rest))).
  rewrite (digits_dot_app d1 _ H1), (digits_dot_app d2 _ H2).
  rewrite span_digits_app; [|now destruct d3|simpl; now rewrite Hg].
  destruct d3 as [|c3 d3]; [discriminate|]. now rewrite Hl.
Qed.

End LetterSuffix.

(** What the pattern, written without the DOTALL flag, does with a line feed
    after the letter: one that ends the input is left out of the tail, and
    with one before the end there is no match, so that the whole text is
    taken as the core and construction fails. *)
Lemma letter_suffix_line_feed :
  _split_version ("1.0.0a" ++ line_feed) = Ok ("1.0.0", Some "a") /\
  _split_version ("1.0.0a" ++ line_feed)
  <> Ok ("1.0.0", Some ("a" ++ line_feed)) /\
  _split_version ("1.0.0a" ++ line_feed ++ "b")
  = Ok ("1.0.0a" ++ line_feed ++ "b", None) /\
  _split_version ("1.0.0a" ++ line_feed ++ "b")
  <> Ok ("1.0.0", Some ("a" ++ line_feed ++ "b")) /\
  __init__ ("1.0.0a" ++ line_feed ++ "b")
  = Raise (InvalidVersionFormat ("1.0.0a" ++ line_feed ++ "b")).
Proof. repeat split; try reflexivity; discriminate. Qed.

(** C10, as the claim states it, fails: a letter that is not one of a-z and
    A-Z, such as the one of code point 233, does not start a tail. *)
Lemma letter_suffix_needs_ascii_letter :
  Py.isalpha_ascii "233" = false /\
  _split_version ("1.0.0" ++ String "233" "x")
  = Ok ("1.0.0" ++ String "233" "x", None) /\
  _split_version ("1.0.0" ++ String "233" "x")
  <> Ok ("1.0.0", Some (String "233" "x")) /\
  __init__ ("1.0.0" ++ String "233" "x")
  = Raise (InvalidVersionFormat ("1.0.0" ++ String "233" "x")).
Proof. repeat split; try reflexivity; discriminate. Qed.

(** C10, amended.  Take an input that, after its leading [v]s, is three
    dot-separated digit groups, a character, and a rest without hyphen.  If
    the character is one of the letters a-z and A-Z and the rest holds no
    line feed, the splitter returns the three groups as the core and
    everything from the letter on as the tail.  If the character is neither
    such a letter nor a digit, the rule does not apply: the whole text is the
    core and there is no tail.  With one or two digit groups before the
    letter the rule does not apply either.  The instance of "0.3.0b" is less
    than that of "1.2.42", and that of "1.0.0alpha" less than that of
    "1.0.0-beta". *)
Theorem letter_suffix_split :
  (forall n d1 d2 d3 l body,
      digit_group d1 = true -> digit_group d2 = true ->
      digit_group d3 = true -> Py.isalpha_ascii l = true ->
      Py.contains "-" body = false -> Py.contains "010" body = false ->
      _split_version
        (replicate n "v" ++ d1 ++ "." ++ d2 ++ "." ++ d3 ++ String l body)
      = Ok (d1 ++ "." ++ d2 ++ "." ++ d3, Some (String l body))) /\
  (forall n d1 d2 d3 l rest,
      digit_group d1 = true -> digit_group d2 = true ->
      digit_group d3 = true ->
      Py.isalpha_ascii l = false -> Py.isdigit l = false ->
      Py.contains "-" (String l rest) = false ->
      _split_version
        (replicate n "v" ++ d1 ++ "." ++ d2 ++ "." ++ d3 ++ String l rest)
      = Ok (d1 ++ "." ++ d2 ++ "." ++ d3 ++ String l rest, None)) /\
  (forall n d1 d2 l rest,
      digit_group d1 = true -> digit_group d2 = true ->
      Py.isalpha_ascii l = true -> Py.contains "-" rest = false ->
      _split_version (replicate n "v" ++ d1 ++ String l rest)
      = Ok (d1 ++ String l rest, None) /\
      _split_version (replicate n "v" ++ d1 ++ "." ++ d2 ++ String l rest)
      = Ok (d1 ++ "." ++ d2 ++ String l rest, None)) /\
  (exists a b, __init__ "0.3.0b" = Ok a /\ __init__ "1.2.42" = Ok b
               /\ __lt__ a b = Ok true /\ __lt__ b a = Ok false) /\
  (exists a b, __init__ "1.0.0alpha" = Ok a /\ __init__ "1.0.0-beta" = Ok b
               /\ __lt__ a b = Ok true /\ __lt__ b a = Ok false).
Proof.
  split; [|split; [|split]].
  - intros n d1 d2 d3 l body H1 H2 H3 Hl Hd Hn.
    rewrite split_version_strip.
    rewrite split_version_no_dash; rewrite (lstrip_digit_group d1 _ H1).
    + pose proof (re_match_version_complete d1 d2 d3 l body EmptyString
                    H1 H2 H3 Hl Hn eq_refl) as R.
      rewrite app_nil_r_string in R. now rewrite R.
    + now apply three_groups_without_dash.
  - intros n d1 d2 d3 l rest H1 H2 H3 Hl Hg Hd.
    rewrite split_version_strip.
    rewrite split_version_no_dash; rewrite (lstrip_digit_group d1 _ H1).
    + now rewrite (re_match_version_other d1 d2 d3 l rest H1 H2 H3 Hl Hg).
    + change (d1 ++ "." ++ d2 ++ "." ++ d3 ++ String l rest)
        with (d1 ++ String "." (d2 ++ String "." (d3 ++ String l rest))).
      rewrite contains_app. cbn [Py.contains]. rewrite contains_app.
      cbn [Py.contains]. rewrite contains_app.
      rewrite !digit_group_without by first [reflexivity|assumption].
      exact Hd.
  - intros n d1 d2 l rest H1 H2 Hl Hr. rewrite !split_version_strip. split.
    + rewrite split_version_no_dash; rewrite (lstrip_digit_group d1 _ H1).
      * now rewrite (re_match_version_one_letter d1 l rest
                       (digit_group_all_digits d1 H1) Hl).
      * rewrite contains_app. simpl.
        now rewrite (digit_group_without "-" d1 eq_refl H1),
          (letter_without_dash l Hl), Hr.
    + rewrite split_version_no_dash; rewrite (lstrip_digit_group d1 _ H1).
      * change (d1 ++ "." ++ d2 ++ String l rest)
          with (d1 ++ String "." (d2 ++ String l rest)).
        now rewrite (re_match_version_two_letter d1 d2 l rest H1
                       (digit_group_all_digits d2 H2) Hl).
      * change (d1 ++ "." ++ d2 ++ String l rest)
          with (d1 ++ String "." (d2 ++ String l rest)).
        rewrite contains_app. simpl. rewrite contains_app. simpl.
        rewrite !digit_group_without by first [reflexivity|assumption].
        now rewrite (letter_without_dash l Hl), Hr.
  - split; do 2 eexists; (split; [vm_compute; reflexivity|]);
      (split; [vm_compute; reflexivity|]); split; reflexivity.
Qed.

Lemma letter_suffix_split_witness :
  _split_version "vv2.0.0b1" = Ok ("2.0.0", Some "b1") /\
  _split_version "2.0.0+b1" = Ok ("2.0.0+b1", None) /\
  (_split_version "12b" = Ok ("12b", None) /\
   _split_version "1.0b" = Ok ("1.0b", None)).
Proof.
  split; [|split].
  - exact (proj1 letter_suffix_split 2%nat "2" "0" "0" "b"%char "1"
             eq_refl eq_refl eq_refl eq_refl eq_refl eq_refl).
  - exact (proj1 (proj2 letter_suffix_split) 0%nat "2" "0" "0" "+"%char "b1"
             eq_refl eq_refl eq_refl eq_refl eq_refl eq_refl).
  - split.
    + exact (proj1 (proj1 (proj2 (proj2 letter_suffix_split)) 0%nat "12" "0"
                      "b"%char "" eq_refl eq_refl eq_refl eq_refl)).
    + exact (proj2 (proj1 (proj2 (proj2 letter_suffix_split)) 0%nat "1" "0"
                      "b"%char "" eq_refl eq_refl eq_refl eq_refl)).
Defined.

(** ** The order as a whole *)

(** C1, as the claim states it, fails: the instances of "1.0.0-1" and
    "1.0.0-01" are not equal, since their raw pre-release texts differ, and
    neither is less than the other, since their only identifiers are both the
    integer 1. *)
Lemma trichotomy_fails :
  exists a b,
    __init__ "1.0.0-1" = Ok a /\ __init__ "1.0.0-01" = Ok b /\
    __lt__ a b = Ok false /\ __eq__ a b = false /\ __lt__ b a = Ok false.
Proof.
  do 2 eexists. split; [vm_compute; reflexivity|].
  split; [vm_compute; reflexivity|]. repeat split.
Qed.

(** C1, amended.  For constructed instances [a], [b] and [c]: [__lt__]
    always returns; exactly one of a < b, b < a and "a and b have the same
    key" holds, the key being major, minor, patch and the sequence of
    pre-release identifiers (the integer of a numeric part, the text of a
    textual one) or its absence; a == b implies that the keys are the same,
    hence that neither is less than the other, so at most one of a < b,
    a == b, b < a holds; the strict order is transitive and asymmetric. *)
Theorem precedence_is_strict_order sa sb sc a b c :
  __init__ sa = Ok a -> __init__ sb = Ok b -> __init__ sc = Ok c ->
  (exists x y,
      __lt__ a b = Ok x /\ __lt__ b a = Ok y /\
      (x = true \/ y = true \/ key_of a = key_of b) /\
      (x = true -> y = false /\ key_of a <> key_of b /\ __eq__ a b = false) /\
      (y = true -> x = false /\ key_of a <> key_of b /\ __eq__ a b = false) /\
      (key_of a = key_of b -> x = false /\ y = false) /\
      (__eq__ a b = true -> key_of a = key_of b /\ x = false /\ y = false)) /\
  (__lt__ a b = Ok true -> __lt__ b c = Ok true -> __lt__ a c = Ok true) /\
  (__lt__ a b = Ok true -> __lt__ b a = Ok false).
Proof.
  intros Ha Hb Hc.
  pose proof (init_well_formed sa a Ha) as Wa.
  pose proof (init_well_formed sb b Hb) as Wb.
  pose proof (init_well_formed sc c Hc) as Wc.
  destruct key_order as [keq krefl kopp ktrans].
  rewrite (lt_key a b Wa Wb), (lt_key b a Wb Wa), (lt_key b c Wb Wc),
    (lt_key a c Wa Wc).
  pose proof (kopp (key_of a) (key_of b)) as Hopp.
  pose proof (eq_key sa sb a b Ha Hb) as Heq.
  split; [|split].
  - exists (is_lt (key_cmp (key_of a) (key_of b))),
      (is_lt (key_cmp (key_of b) (key_of a))).
    split; [reflexivity|]. split; [reflexivity|]. rewrite Hopp.
    destruct (key_cmp (key_of a) (key_of b)) eqn:E; simpl.
    + apply keq in E. repeat split; auto; try discriminate.
    + assert (key_of a <> key_of b) as Hne.
      { intros H. rewrite H, krefl in E. discriminate E. }
      repeat split; auto; try discriminate; try contradiction;
        try (elim Hne; now apply Heq);
        destruct (__eq__ a b); [elim Hne; now apply Heq|reflexivity].
    + assert (key_of a <> key_of b) as Hne.
      { intros H. rewrite H, krefl in E. discriminate E. }
      repeat split; auto; try discriminate; try contradiction;
        try (elim Hne; now apply Heq);
        destruct (__eq__ a b); [elim Hne; now apply Heq|reflexivity].
  - intros H1 H2.
    destruct (key_cmp (key_of a) (key_of b)) eqn:E1; try discriminate.
    destruct (key_cmp (key_of b) (key_of c)) eqn:E2; try discriminate.
    now rewrite (ktrans _ _ _ E1 E2).
  - intros H1. rewrite Hopp.
    destruct (key_cmp (key_of a) (key_of b)); try discriminate. reflexivity.
Qed.

Lemma precedence_is_strict_order_witness :
  __lt__ v_alpha v_release = Ok true /\ __lt__ v_beta v_alpha = Ok false.
Proof.
  destruct (precedence_is_strict_order
              "1.0.0-alpha" "1.0.0-beta" "1.0.0" v_alpha v_beta v_release
              eq_refl eq_refl eq_refl) as (_ & Htrans & Hasym).
  split.
  - apply Htrans; reflexivity.
  - apply Hasym; reflexivity.
Defined.

(** ** Further properties of the splitter and the core parser *)

Section MoreSplitting.

Lemma more_sample_instances :
  __init__ "1.0.0-1" = Ok one /\ __init__ "1.0.0-01" = Ok zero_one /\
  __init__ "1.0.1-alpha" = Ok next_alpha.
Proof. repeat split. Qed.

Lemma isalpha_not_space c : Py.isalpha_ascii c = true -> Py.isspace c = false.
Proof.
  unfold Py.isalpha_ascii, Py.isspace.
  repeat rewrite ?andb_true_iff, ?orb_true_iff, ?andb_false_iff,
    ?orb_false_iff, ?N.leb_le, ?N.leb_gt, ?N.eqb_eq, ?N.eqb_neq in *.
  lia.
Qed.

(** Digits and then a letter: [int] rejects the text. *)
Lemma int_digits_letter d l r :
  all_digits d = true -> Py.isalpha_ascii l = true ->
  forall acc b, Py.int_digits acc b (d ++ String l r) = None.
Proof.
  intros Hd Hl. induction d as [|c d IH]; simpl; intros acc b.
  - rewrite (isalpha_not_digit l Hl), (isalpha_neq l "_" Hl eq_refl).
    now rewrite (isalpha_not_space l Hl).
  - simpl in Hd. apply andb_true_iff in Hd as [Hc Hd]. rewrite Hc. now apply IH.
Qed.

Lemma int_literal_digits_letter d l r :
  digit_group d = true -> Py.isalpha_ascii l = true ->
  Py.int_literal (d ++ String l r) = None.
Proof.
  intros Hd Hl. destruct d as [|c d]; [discriminate|].
  simpl in Hd. apply andb_true_iff in Hd as [Hc Hd].
  unfold Py.int_literal. simpl. rewrite (isdigit_not_space c Hc).
  rewrite (isdigit_neq c "+" Hc eq_refl), (isdigit_neq c "-" Hc eq_refl).
  simpl. rewrite Hc. now apply int_digits_letter.
Qed.

(** The first entry of [split] starts with whatever holds no separator. *)
Lemma split_prefix c a r :
  Py.contains c a = false ->
  exists h t, Py.split c r = h :: t /\ Py.split c (a ++ r) = (a ++ h) :: t.
Proof.
  intros Ha. induction a as [|x a IH]; simpl in *.
  - destruct (Py.split c r) as [|h t] eqn:E.
    + destruct r as [|y r]; simpl in E; [discriminate|].
      destruct (Ascii.eqb y c); [discriminate|].
      destruct (Py.split c r); discriminate.
    + eauto.
  - destruct (Ascii.eqb x c); [discriminate|].
    destruct (IH Ha) as (h & t & E1 & E2). rewrite E2. eauto.
Qed.

Lemma split_starts_with l c r :
  Ascii.eqb l c = false ->
  exists h t, Py.split c (String l r) = String l h :: t.
Proof.
  intros H. simpl. rewrite H. destruct (Py.split c r); eauto.
Qed.

Lemma re_match_version_four d1 d2 d3 rest :
  digit_group d1 = true -> digit_group d2 = true -> digit_group d3 = true ->
  Py.re_match_version (d1 ++ String "." (d2 ++ String "." (d3 ++ String "." rest)))
  = None.
Proof.
  intros H1 H2 H3. unfold Py.re_match_version.
  rewrite (digits_dot_app d1 _ H1), (digits_dot_app d2 _ H2).
  rewrite span_digits_app; [|now destruct d3|reflexivity].
  now destruct d3.
Qed.

End MoreSplitting.

(** X1. The splitter loses nothing but the leading [v]s, the hyphen it cuts
    at, and at most one final line feed: the core holds no hyphen, and the
    stripped input is the core when there is no tail, and otherwise the core,
    a hyphen and the tail, or, for an input without hyphen, the core and the
    tail, possibly followed by one line feed. *)
Theorem splitter_reassembles s :
  exists m p,
    _split_version s = Ok (m, p) /\ Py.contains "-" m = false /\
    match p with
    | None => Py.lstrip "v" s = m
    | Some tail =>
        Py.lstrip "v" s = m ++ "-" ++ tail \/
        (Py.contains "-" (Py.lstrip "v" s) = false /\
         (Py.lstrip "v" s = m ++ tail \/
          Py.lstrip "v" s = m ++ tail ++ line_feed))
    end.
Proof.
  unfold _split_version.
  destruct (Py.contains "-" (Py.lstrip "v" s)) eqn:Hd.
  - destruct (split1_contains _ _ Hd) as (a & b & E & Ha & Hs).
    rewrite E. simpl. exists a, (Some b). repeat split; auto.
  - destruct (Py.re_match_version (Py.lstrip "v" s)) as [[m p]|] eqn:E.
    + exists m, (Some p).
      apply re_match_version_spec in E
        as (d1 & d2 & d3 & l & body & tail & E & _ & _ & _ & _ & _ & _ & _ & Ht).
      split; [reflexivity|]. split.
      * rewrite E, contains_app in Hd. now apply orb_false_iff in Hd.
      * right. split; [reflexivity|].
        destruct Ht as [-> | ->]; [left|right]; rewrite E; [|reflexivity].
        now rewrite app_nil_r_string.
    + exists (Py.lstrip "v" s), None. auto.
Qed.

(** X2. An input whose stripped text is empty or starts with a hyphen has an
    empty numeric core, and construction fails with the invalid-format error
    of the empty core. *)
Theorem empty_core_fails n T :
  __init__ (replicate n "v") = Raise (InvalidVersionFormat "") /\
  __init__ (replicate n "v" ++ "-" ++ T) = Raise (InvalidVersionFormat "").
Proof.
  split.
  - rewrite (init_spec _ EmptyString None); [reflexivity|].
    rewrite <- (app_nil_r_string (replicate n "v")), split_version_strip.
    reflexivity.
  - rewrite (init_spec _ EmptyString (Some T)); [reflexivity|].
    rewrite split_version_strip. reflexivity.
Qed.

(** X3. Only the first three dot-separated entries of the core are read: for
    digit groups X, Y, Z of at most 4300 digits and any rest without hyphen,
    "X.Y.Z.rest" constructs with the triple (X, Y, Z) and no tail, whatever
    the rest is. *)
Theorem extra_core_entries_ignored X Y Z rest :
  digit_group X = true -> digit_group Y = true -> digit_group Z = true ->
  within_limit X = true -> within_limit Y = true -> within_limit Z = true ->
  Py.contains "-" rest = false ->
  __init__ (X ++ "." ++ Y ++ "." ++ Z ++ "." ++ rest)
  = Ok (mk (X ++ "." ++ Y ++ "." ++ Z ++ "." ++ rest)
           (decimal 0 X) (decimal 0 Y) (decimal 0 Z) None None).
Proof.
  intros HX HY HZ LX LY LZ Hr.
  change (X ++ "." ++ Y ++ "." ++ Z ++ "." ++ rest)
    with (X ++ String "." (Y ++ String "." (Z ++ String "." rest))).
  assert (_split_version (X ++ String "." (Y ++ String "." (Z ++ String "." rest)))
          = Ok (X ++ String "." (Y ++ String "." (Z ++ String "." rest)), None))
    as E.
  { apply split_version_plain. rewrite (lstrip_digit_group X _ HX).
    split; [reflexivity|]. split.
    - rewrite contains_app. simpl. rewrite contains_app. simpl.
      rewrite contains_app. simpl.
      rewrite !digit_group_without by first [reflexivity|assumption].
      exact Hr.
    - now apply re_match_version_four. }
  rewrite (init_spec _ _ None E).
  rewrite (parse_main_version_spec _ X Y Z (Py.split "." rest)).
  - now rewrite !int_digit_group by assumption.
  - rewrite !split_app by (now apply digit_group_without).
    rewrite pad_spec. simpl. now rewrite app_nil_r.
Qed.

Lemma extra_core_entries_ignored_witness :
  __init__ ("1" ++ "." ++ "2" ++ "." ++ "3" ++ "." ++ "4.x")
  = Ok (mk "1.2.3.4.x" 1 2 3 None None).
Proof.
  exact (extra_core_entries_ignored "1" "2" "3" "4.x"
           eq_refl eq_refl eq_refl eq_refl eq_refl eq_refl eq_refl).
Defined.

(** X4. The hyphen rule comes first: when three digit groups are followed by
    a letter and a hyphen occurs later, the cut is at the hyphen, the letter
    stays in the numeric core, and construction fails with the
    invalid-format error of that core. *)
Theorem hyphen_rule_before_letter_suffix n d1 d2 d3 l body T :
  digit_group d1 = true -> digit_group d2 = true -> digit_group d3 = true ->
  Py.isalpha_ascii l = true -> Py.contains "-" body = false ->
  _split_version
    (replicate n "v" ++ (d1 ++ "." ++ d2 ++ "." ++ d3 ++ String l body)
       ++ "-" ++ T)
  = Ok (d1 ++ "." ++ d2 ++ "." ++ d3 ++ String l body, Some T) /\
  __init__
    (replicate n "v" ++ (d1 ++ "." ++ d2 ++ "." ++ d3 ++ String l body)
       ++ "-" ++ T)
  = Raise (InvalidVersionFormat
             (d1 ++ "." ++ d2 ++ "." ++ d3 ++ String l body)).
Proof.
  intros H1 H2 H3 Hl Hb.
  assert (_split_version
            (replicate n "v" ++ (d1 ++ "." ++ d2 ++ "." ++ d3 ++ String l body)
               ++ "-" ++ T)
          = Ok (d1 ++ "." ++ d2 ++ "." ++ d3 ++ String l body, Some T)) as E.
  { rewrite split_version_strip.
    change ((d1 ++ "." ++ d2 ++ "." ++ d3 ++ String l body) ++ "-" ++ T)
      with ((d1 ++ "." ++ d2 ++ "." ++ d3 ++ String l body) ++ String "-" T).
    rewrite split_version_dash; rewrite (lstrip_digit_group d1 _ H1).
    - reflexivity.
    - now apply three_groups_without_dash. }
  split; [exact E|]. rewrite (init_spec _ _ _ E).
  change (d1 ++ "." ++ d2 ++ "." ++ d3 ++ String l body)
    with (d1 ++ String "." (d2 ++ String "." (d3 ++ String l body))).
  destruct (split_starts_with l "." body (isalpha_neq l "." Hl eq_refl))
    as (h & t & Eh).
  destruct (split_prefix "." d3 (String l body)
              (digit_group_without "." d3 eq_refl H3))
    as (h' & t' & Eh' & E3).
  rewrite Eh in Eh'. injection Eh' as <- <-.
  destruct (pad_three (d1 ++ String "." (d2 ++ String "." (d3 ++ String l body))))
    as (e0 & e1 & e2 & rest & EP).
  rewrite (parse_main_version_spec _ _ _ _ _ EP).
  rewrite !split_app in EP by (now apply digit_group_without).
  rewrite E3, pad_spec in EP. simpl in EP. injection EP as <- <- <- _.
  destruct (int_literal_none _ (int_literal_digits_letter d3 l h H3 Hl))
    as [msg I3].
  rewrite I3. destruct (Py.int d1); destruct (Py.int d2); reflexivity.
Qed.

Lemma hyphen_rule_before_letter_suffix_witness :
  _split_version "v1.0.0alpha-1" = Ok ("1.0.0alpha", Some "1") /\
  __init__ "v1.0.0alpha-1" = Raise (InvalidVersionFormat "1.0.0alpha").
Proof.
  exact (hyphen_rule_before_letter_suffix 1%nat "1" "0" "0" "a"%char "lpha" "1"
           eq_refl eq_refl eq_refl eq_refl eq_refl).
Defined.

(** X5. The letter-suffix spelling and the hyphen spelling give equal
    instances: for digit groups X, Y, Z, one of the letters a-z and A-Z and
    a rest without hyphen and line feed, "X.Y.Z" followed by the letter and
    the rest, and "X.Y.Z-" followed by them, construct instances that
    [__eq__] holds of and that have the same parts, as long as the groups and
    the first digit run of each segment of the tail have at most 4300
    digits. *)
Theorem letter_suffix_equals_hyphen_form d1 d2 d3 l body :
  digit_group d1 = true -> digit_group d2 = true -> digit_group d3 = true ->
  within_limit d1 = true -> within_limit d2 = true ->
  within_limit d3 = true ->
  Py.isalpha_ascii l = true ->
  Py.contains "-" body = false -> Py.contains "010" body = false ->
  tail_within_limit (String l body) = true ->
  exists a b,
    __init__ (d1 ++ "." ++ d2 ++ "." ++ d3 ++ String l body) = Ok a /\
    __init__ (d1 ++ "." ++ d2 ++ "." ++ d3 ++ "-" ++ String l body) = Ok b /\
    __eq__ a b = true /\ __eq__ b a = true /\
    pre_release a = Some (String l body) /\
    pre_release_parts a = pre_release_parts b.
Proof.
  intros H1 H2 H3 L1 L2 L3 Hl Hd Hn LT.
  assert (_split_version (d1 ++ "." ++ d2 ++ "." ++ d3 ++ String l body)
          = Ok (d1 ++ String "." (d2 ++ String "." d3), Some (String l body)))
    as E.
  { rewrite split_version_no_dash; rewrite (lstrip_digit_group d1 _ H1).
    - pose proof (re_match_version_complete d1 d2 d3 l body EmptyString
                    H1 H2 H3 Hl Hn eq_refl) as R.
      rewrite app_nil_r_string in R. now rewrite R.
    - now apply three_groups_without_dash. }
  do 2 eexists. split; [|split].
  - rewrite (init_spec _ _ _ E), parse_main_version_three by assumption.
    cbn [tail_ok]. rewrite LT. reflexivity.
  - now apply init_three_dash.
  - repeat split; apply eq_spec; simpl; auto.
Qed.

Lemma letter_suffix_equals_hyphen_form_witness :
  exists a b,
    __init__ "2.0.0b1" = Ok a /\ __init__ "2.0.0-b1" = Ok b /\
    __eq__ a b = true /\ __eq__ b a = true /\
    pre_release a = Some "b1" /\
    pre_release_parts a = pre_release_parts b.
Proof.
  exact (letter_suffix_equals_hyphen_form "2" "0" "0" "b"%char "1"
           eq_refl eq_refl eq_refl eq_refl eq_refl eq_refl eq_refl
           eq_refl eq_refl eq_refl).
Defined.

(** ** What the core parser accepts as a number *)

Section Decorations.

Lemma space_not_digit c : Py.isspace c = true -> Py.isdigit c = false.
Proof.
  intros H. destruct (Py.isdigit c) eqn:E; [|reflexivity].
  apply isdigit_not_space in E. congruence.
Qed.

Lemma space_neq c x :
  Py.isspace c = true -> Py.isspace x = false -> Ascii.eqb c x = false.
Proof.
  intros Hc Hx. destruct (Ascii.eqb_spec c x) as [->|]; congruence.
Qed.

Lemma all_space_without c s :
  Py.isspace c = false -> Py.all_space s = true -> Py.contains c s = false.
Proof.
  intros Hc. induction s as [|x s IH]; simpl; [reflexivity|].
  intros H. apply andb_true_iff in H as [Hx Hs].
  rewrite (space_neq x c Hx Hc). auto.
Qed.

Lemma skip_space_app pre r :
  Py.all_space pre = true -> Py.skip_space (pre ++ r) = Py.skip_space r.
Proof.
  induction pre as [|x pre IH]; simpl; [reflexivity|].
  intros H. apply andb_true_iff in H as [Hx Hs]. rewrite Hx. auto.
Qed.

Lemma int_digits_then_space d post :
  all_digits d = true -> Py.all_space post = true ->
  forall acc, Py.int_digits acc true (d ++ post) = Some (decimal acc d).
Proof.
  intros Hd Hp. induction d as [|c d IH]; simpl; intros acc.
  - destruct post as [|x post]; [reflexivity|]. simpl in *.
    apply andb_true_iff in Hp as [Hx Hp].
    rewrite (space_not_digit x Hx), (space_neq x "_" Hx eq_refl), Hx, Hp.
    reflexivity.
  - simpl in Hd. apply andb_true_iff in Hd as [Hc Hd]. rewrite Hc. now apply IH.
Qed.

Lemma int_digits_group_then_space d post :
  digit_group d = true -> Py.all_space post = true ->
  Py.int_digits 0 false (d ++ post) = Some (decimal 0 d).
Proof.
  intros Hd Hp. destruct d as [|c d]; [discriminate|].
  simpl in *. apply andb_true_iff in Hd as [Hc Hd]. rewrite Hc.
  now apply int_digits_then_space.
Qed.

Lemma zeros_digit_group z X :
  digit_group X = true -> digit_group (replicate z "0" ++ X) = true.
Proof.
  intros HX. induction z as [|z IH]; simpl; [assumption|].
  now apply digit_group_all_digits in IH.
Qed.

Lemma zeros_decimal z X : decimal 0 (replicate z "0" ++ X) = decimal 0 X.
Proof. induction z as [|z IH]; simpl; [reflexivity|exact IH]. Qed.

Lemma int_literal_decorated pre plus z X post :
  Py.all_space pre = true -> Py.all_space post = true ->
  digit_group X = true ->
  Py.int_literal (decorated pre plus z X post) = Some (decimal 0 X).
Proof.
  intros Hpre Hpost HX. unfold decorated, Py.int_literal.
  rewrite (skip_space_app pre _ Hpre), <- (app_assoc_string _ X post).
  pose proof (zeros_digit_group z X HX) as HD.
  rewrite <- (zeros_decimal z X).
  destruct plus; simpl.
  - now apply int_digits_group_then_space.
  - destruct (replicate z "0" ++ X) as [|c d] eqn:E; [discriminate|].
    pose proof HD as HD'. simpl in HD'. apply andb_true_iff in HD' as [Hc _].
    simpl. rewrite (isdigit_not_space c Hc).
    rewrite (isdigit_neq c "+" Hc eq_refl), (isdigit_neq c "-" Hc eq_refl).
    now apply (int_digits_group_then_space (String c d) post).
Qed.

Lemma scan_digits_then_space d post :
  all_digits d = true -> Py.all_space post = true ->
  forall n, Py.scan_digits n false (d ++ post)
            = Some (n + String.length d)%nat.
Proof.
  intros Hd Hp. induction d as [|c d IH]; simpl; intros n.
  - destruct post as [|x post]; simpl; [f_equal; lia|].
    simpl in Hp. apply andb_true_iff in Hp as [Hx _].
    rewrite (space_not_digit x Hx), (space_neq x "_" Hx eq_refl).
    f_equal. lia.
  - simpl in Hd. apply andb_true_iff in Hd as [Hc Hd]. rewrite Hc, (IH Hd).
    f_equal. lia.
Qed.

Lemma length_zeros z X :
  String.length (replicate z "0" ++ X) = (z + String.length X)%nat.
Proof. induction z as [|z IH]; simpl; [reflexivity|now rewrite IH]. Qed.

Lemma exceeds_limit_decorated pre plus z X post :
  Py.all_space pre = true -> Py.all_space post = true ->
  digit_group X = true ->
  (z + String.length X <= Py.max_str_digits)%nat ->
  Py.exceeds_limit (decorated pre plus z X post) = false.
Proof.
  intros Hpre Hpost HX HL. unfold decorated, Py.exceeds_limit.
  rewrite (skip_space_app pre _ Hpre), <- (app_assoc_string _ X post).
  pose proof (zeros_digit_group z X HX) as HD.
  pose proof (length_zeros z X) as HLen.
  destruct (replicate z "0" ++ X) as [|c d] eqn:E; [discriminate|].
  pose proof HD as HD'. simpl in HD'. apply andb_true_iff in HD' as [Hc _].
  assert (Py.scan_digits 0 false (String c d ++ post)
          = Some (String.length (String c d))) as HS.
  { now rewrite (scan_digits_then_space (String c d) post HD Hpost 0%nat). }
  assert ((Py.max_str_digits <? String.length (String c d))%nat = false) as HN.
  { apply Nat.ltb_ge. rewrite HLen. exact HL. }
  destruct plus.
  - change ("+" ++ String c d ++ post) with (String "+" (String c d ++ post)).
    cbn [Py.skip_space]. change (Py.isspace "+") with false. cbv iota.
    change (Ascii.eqb "+" "+") with true. cbn [orb].
    change (String c d ++ post) with (String c (d ++ post)) at 1.
    cbv iota. rewrite (isdigit_neq c "_" Hc eq_refl). now rewrite HS, HN.
  - change ("" ++ String c d ++ post) with (String c (d ++ post)).
    cbn [Py.skip_space]. rewrite (isdigit_not_space c Hc).
    rewrite (isdigit_neq c "+" Hc eq_refl), (isdigit_neq c "-" Hc eq_refl).
    cbn [orb]. rewrite (isdigit_neq c "_" Hc eq_refl).
    change (String c (d ++ post)) with (String c d ++ post).
    now rewrite HS, HN.
Qed.

Lemma int_decorated pre plus z X post :
  Py.all_space pre = true -> Py.all_space post = true ->
  digit_group X = true ->
  (z + String.length X <= Py.max_str_digits)%nat ->
  Py.int (decorated pre plus z X post) = Ok (decimal 0 X).
Proof.
  intros Hpre Hpost HX HL. unfold Py.int.
  now rewrite exceeds_limit_decorated, int_literal_decorated.
Qed.

Lemma decorated_without_dot pre plus z X post :
  Py.all_space pre = true -> Py.all_space post = true ->
  digit_group X = true ->
  Py.contains "." (decorated pre plus z X post) = false.
Proof.
  intros Hpre Hpost HX. unfold decorated.
  rewrite !contains_app, (all_space_without "." pre eq_refl Hpre),
    (all_space_without "." post eq_refl Hpost),
    (digit_group_without "." X eq_refl HX).
  assert (Py.contains "." (replicate z "0") = false) as ->.
  { induction z; simpl; auto. }
  now destruct plus.
Qed.

End Decorations.

(** X6. The core parser reads each of its three entries with [int], so an
    entry may surround its digits with white space and put a plus sign and
    leading zeros before them, up to 4300 digits in all: the number is that
    of the digits alone. *)
Theorem core_entries_may_be_decorated e1 e2 e3 X Y Z :
  writes e1 X -> writes e2 Y -> writes e3 Z ->
  _parse_main_version (e1 ++ "." ++ e2 ++ "." ++ e3)
  = Ok (decimal 0 X, decimal 0 Y, decimal 0 Z).
Proof.
  intros (HX & pre1 & plus1 & z1 & post1 & A1 & B1 & L1 & ->)
         (HY & pre2 & plus2 & z2 & post2 & A2 & B2 & L2 & ->)
         (HZ & pre3 & plus3 & z3 & post3 & A3 & B3 & L3 & ->).
  change (?a ++ "." ++ ?b ++ "." ++ ?c)
    with (a ++ String "." (b ++ String "." c)).
  rewrite (parse_main_version_spec _ (decorated pre1 plus1 z1 X post1)
             (decorated pre2 plus2 z2 Y post2)
             (decorated pre3 plus3 z3 Z post3) []).
  - now rewrite !int_decorated.
  - rewrite !split_app, split_whole by (now apply decorated_without_dot).
    reflexivity.
Qed.

Lemma core_entries_may_be_decorated_witness :
  _parse_main_version (" +01" ++ "." ++ "2 " ++ "." ++ "003") = Ok (1, 2, 3).
Proof.
  apply (core_entries_may_be_decorated " +01" "2 " "003" "1" "2" "3").
  - split; [reflexivity|]. exists " ", true, 1%nat, "".
    repeat split. unfold Py.max_str_digits. simpl. lia.
  - split; [reflexivity|]. exists "", false, 0%nat, " ".
    repeat split. unfold Py.max_str_digits. simpl. lia.
  - split; [reflexivity|]. exists "", false, 2%nat, "".
    repeat split. unfold Py.max_str_digits. simpl. lia.
Defined.

(** ** Further properties of the pre-release parser *)

Section MoreParts.

Lemma join_cons_char sep x h t :
  join sep (String x h :: t) = String x (join sep (h :: t)).
Proof. destruct t; reflexivity. Qed.

Lemma split_cons c s : exists h t, Py.split c s = h :: t.
Proof.
  destruct s as [|x r]; simpl; [eauto|].
  destruct (Ascii.eqb x c); [eauto|]. destruct (Py.split c r); eauto.
Qed.

(** Joining what [split] returns gives the text back. *)
Lemma join_split c s : join (String c EmptyString) (Py.split c s) = s.
Proof.
  induction s as [|x r IH]; simpl; [reflexivity|].
  destruct (Ascii.eqb_spec x c) as [->|Hx].
  - destruct (split_cons c r) as (h & t & E). rewrite E in *.
    change (join (String c EmptyString) (EmptyString :: h :: t))
      with (String c (join (String c EmptyString) (h :: t))).
    now rewrite IH.
  - destruct (split_cons c r) as (h & t & E). rewrite E in *.
    now rewrite join_cons_char, IH.
Qed.

Lemma length_split c s : List.length (Py.split c s) = S (count_char c s).
Proof.
  induction s as [|x r IH]; simpl; [reflexivity|].
  destruct (Ascii.eqb x c); simpl; [now rewrite IH|].
  destruct (split_cons c r) as (h & t & E). rewrite E in *. exact IH.
Qed.

Lemma text_of_part_of s : text_of (part_of s) = s.
Proof. unfold part_of. now destruct (Py.re_findall_digits s). Qed.

Lemma map_text_of_part_of l : map text_of (map part_of l) = l.
Proof.
  induction l as [|x l IH]; simpl; [reflexivity|].
  now rewrite text_of_part_of, IH.
Qed.

Lemma re_findall_digits_nil s :
  Py.re_findall_digits s = [] <-> has_digit s = false.
Proof.
  induction s as [|c r IH]; simpl; [tauto|].
  destruct (Py.isdigit c) eqn:Hc; simpl; [|exact IH].
  split; [|discriminate]. destruct r as [|c' r']; [discriminate|].
  destruct (Py.isdigit c'); [|discriminate].
  destruct (Py.re_findall_digits (String c' r')); discriminate.
Qed.

Lemma decimal_nonneg d :
  all_digits d = true -> forall acc, 0 <= acc -> 0 <= decimal acc d.
Proof.
  induction d as [|c d IH]; cbn [decimal all_digits]; intros H acc Hacc;
    [assumption|].
  apply andb_true_iff in H as [Hc Hd]. apply IH; [assumption|].
  pose proof (digit_value_nonneg c Hc). lia.
Qed.

Lemma re_findall_digits_two c c' r :
  Py.re_findall_digits (String c (String c' r)) =
  if Py.isdigit c then
    if Py.isdigit c' then
      match Py.re_findall_digits (String c' r) with
      | h :: t => String c h :: t
      | [] => [String c EmptyString]
      end
    else String c EmptyString :: Py.re_findall_digits (String c' r)
  else Py.re_findall_digits (String c' r).
Proof. reflexivity. Qed.

(** A digit group that no digit follows is one entry of [findall]. *)
Lemma re_findall_digits_run d q :
  digit_group d = true -> no_digit_ahead q = true ->
  Py.re_findall_digits (d ++ q) = d :: Py.re_findall_digits q.
Proof.
  intros Hd Hq. destruct d as [|c d]; [discriminate|].
  simpl in Hd. apply andb_true_iff in Hd as [Hc Hd].
  revert c Hc. induction d as [|c' d IH]; intros c Hc.
  - simpl. rewrite Hc. destruct q as [|x q]; [reflexivity|].
    simpl in Hq. apply negb_true_iff in Hq. now rewrite Hq.
  - simpl in Hd. apply andb_true_iff in Hd as [Hc' Hd].
    cbn [append]. rewrite re_findall_digits_two, Hc, Hc'.
    change (String c' (d ++ q)) with (String c' d ++ q).
    now rewrite (IH Hd c' Hc').
Qed.

Lemma re_findall_digits_skip p r :
  has_digit p = false ->
  Py.re_findall_digits (p ++ r) = Py.re_findall_digits r.
Proof.
  induction p as [|c p IH]; simpl; [reflexivity|].
  intros H. apply orb_false_iff in H as [Hc Hp]. rewrite Hc. auto.
Qed.

Lemma part_of_first_run p d q :
  has_digit p = false -> digit_group d = true -> no_digit_ahead q = true ->
  part_of (p ++ d ++ q) = (true, VInt (decimal 0 d), p ++ d ++ q).
Proof.
  intros Hp Hd Hq. unfold part_of.
  now rewrite (re_findall_digits_skip p _ Hp), (re_findall_digits_run d q Hd Hq).
Qed.

Lemma run_within_limit_first_run p d q :
  has_digit p = false -> digit_group d = true -> no_digit_ahead q = true ->
  run_within_limit (p ++ d ++ q) = within_limit d.
Proof.
  intros Hp Hd Hq. unfold run_within_limit.
  now rewrite (re_findall_digits_skip p _ Hp), (re_findall_digits_run d q Hd Hq).
Qed.

End MoreParts.

(** X7. In a constructed instance with a pre-release tail, the parts are as
    many as the dots of the tail plus one, so at least one, and their texts
    joined by dots are the tail. *)
Theorem parts_spell_the_tail s v tail :
  __init__ s = Ok v -> pre_release v = Some tail ->
  exists parts,
    pre_release_parts v = Some parts /\
    join "." (map text_of parts) = tail /\
    List.length parts = S (count_char "." tail) /\
    _has_pre_release v = true.
Proof.
  intros Hv Ht. pose proof (init_parts s v Hv) as Hp. rewrite Ht in Hp.
  simpl in Hp. eexists. split; [exact Hp|]. split; [|split].
  - rewrite map_text_of_part_of. apply (join_split "." tail).
  - now rewrite length_map, length_split.
  - unfold _has_pre_release. now rewrite Hp.
Qed.

Lemma parts_spell_the_tail_witness :
  exists parts,
    pre_release_parts rc_1_x = Some parts /\
    join "." (map text_of parts) = "rc.1.x" /\
    List.length parts = S (count_char "." "rc.1.x") /\
    _has_pre_release rc_1_x = true.
Proof.
  exact (parts_spell_the_tail "1.0.0-rc.1.x" rc_1_x "rc.1.x" eq_refl eq_refl).
Defined.

(** X8. Every part of a constructed instance is numeric exactly when its
    text holds a digit: a numeric part carries an integer that is not
    negative, and a textual part carries its own text as value. *)
Theorem parts_are_classified s v parts b value text :
  __init__ s = Ok v -> pre_release_parts v = Some parts ->
  In (b, value, text) parts ->
  if b then (exists n, value = VInt n /\ 0 <= n) /\ has_digit text = true
  else value = VStr text /\ has_digit text = false.
Proof.
  intros Hv Hp Hin. rewrite (init_parts s v Hv) in Hp.
  destruct (pre_release v) as [tail|]; [|discriminate]. simpl in Hp.
  injection Hp as <-. apply in_map_iff in Hin as (seg & Hseg & _).
  unfold part_of in Hseg.
  destruct (Py.re_findall_digits seg) as [|h t] eqn:E.
  - injection Hseg as <- <- <-. split; [reflexivity|].
    now apply re_findall_digits_nil.
  - injection Hseg as <- <- <-. split.
    + eexists. split; [reflexivity|].
      apply decimal_nonneg; [|lia].
      apply digit_group_all_digits. eapply re_findall_digits_head. exact E.
    + destruct (has_digit seg) eqn:Hd; [reflexivity|].
      apply re_findall_digits_nil in Hd. congruence.
Qed.

Lemma parts_are_classified_witness :
  ((exists n, VInt 1 = VInt n /\ 0 <= n) /\ has_digit "1" = true) /\
  (VStr "x" = VStr "x" /\ has_digit "x" = false).
Proof.
  split.
  - apply (parts_are_classified "1.0.0-rc.1.x" rc_1_x
             [(false, VStr "rc", "rc"); (true, VInt 1, "1");
              (false, VStr "x", "x")] true (VInt 1) "1" eq_refl eq_refl).
    simpl. auto.
  - apply (parts_are_classified "1.0.0-rc.1.x" rc_1_x
             [(false, VStr "rc", "rc"); (true, VInt 1, "1");
              (false, VStr "x", "x")] false (VStr "x") "x" eq_refl eq_refl).
    simpl. auto.
Defined.

(** X9. The integer of a numeric part is that of the first digit run of its
    segment: with no digit before the run, no digit right after it and at
    most 4300 digits in it, the loop body of the parser appends a numeric
    part with the number of the run, whatever precedes and follows. *)
Theorem numeric_part_reads_first_digit_run p d q :
  has_digit p = false -> digit_group d = true -> no_digit_ahead q = true ->
  within_limit d = true ->
  parse_part (p ++ d ++ q) = Ok (true, VInt (decimal 0 d), p ++ d ++ q).
Proof.
  intros Hp Hd Hq L. rewrite parse_part_spec.
  rewrite (run_within_limit_first_run p d q Hp Hd Hq), L. f_equal.
  now apply part_of_first_run.
Qed.

Lemma numeric_part_reads_first_digit_run_witness :
  parse_part ("rc" ++ "12" ++ "b34") = Ok (true, VInt 12, "rc12b34").
Proof.
  exact (numeric_part_reads_first_digit_run "rc" "12" "b34"
           eq_refl eq_refl eq_refl eq_refl).
Defined.

(** ** Further properties of the comparison *)

Section MoreComparison.

Lemma lt_single_numeric a b n s m t :
  same_triple a b ->
  pre_release_parts a = Some [(true, VInt n, s)] ->
  pre_release_parts b = Some [(true, VInt m, t)] ->
  __lt__ a b = Ok (n <? m).
Proof.
  intros Ht Ha Hb. rewrite (lt_same_triple_parts a b _ _ Ht Ha Hb).
  rewrite (compare_pre_release_parts_lex a b _ _ Ha Hb). cbn [lex_parts].
  rewrite (compare_single_cmp (true, VInt n, s) (true, VInt m, t)
             eq_refl eq_refl).
  simpl. destruct (Z.compare_spec n m) as [->|H|H]; simpl.
  - now rewrite Z.ltb_irrefl.
  - apply Z.ltb_lt in H. now rewrite H.
  - assert ((n <? m) = false) as -> by (apply Z.ltb_ge; lia). reflexivity.
Qed.

Lemma parts_of_single seg :
  Py.contains "." seg = false -> parts_of (Some seg) = Some [part_of seg].
Proof. intros H. unfold parts_of. simpl. now rewrite split_whole. Qed.

(** Neither less than the other: the keys are the same. *)
Lemma not_lt_same_key sa sb a b :
  __init__ sa = Ok a -> __init__ sb = Ok b ->
  __lt__ a b = Ok false -> __lt__ b a = Ok false -> key_of a = key_of b.
Proof.
  intros Ha Hb. destruct key_order as [keq krefl kopp ktrans].
  rewrite (lt_key a b (init_well_formed sa a Ha) (init_well_formed sb b Hb)).
  rewrite (lt_key b a (init_well_formed sb b Hb) (init_well_formed sa a Ha)).
  rewrite (kopp (key_of a) (key_of b)).
  destruct (key_cmp (key_of a) (key_of b)) eqn:E; simpl; try discriminate.
  intros _ _. now apply keq.
Qed.

End MoreComparison.

(** X10. Two textual parts are compared by their texts, code point by code
    point; so when the positions before some position tie and the texts
    there are s below t, the first instance compares less by its pre-release
    parts, and by [__lt__] when major, minor and patch agree. *)
Theorem textual_parts_by_text a b ta tb v s ra w t rb :
  pre_release_parts a = Some (ta ++ (false, v, s) :: ra)%list ->
  pre_release_parts b = Some (tb ++ (false, w, t) :: rb)%list ->
  Forall2 ties ta tb -> String.compare s t = Lt ->
  _compare_single_pre_release_part (false, v, s) (false, w, t)
  = Ok (Some true) /\
  _compare_single_pre_release_part (false, w, t) (false, v, s)
  = Ok (Some false) /\
  _compare_pre_release_parts a b = Ok true /\
  _compare_pre_release_parts b a = Ok false /\
  (same_triple a b -> __lt__ a b = Ok true /\ __lt__ b a = Ok false).
Proof.
  intros Ha Hb Ht Hst.
  assert (_compare_single_pre_release_part (false, v, s) (false, w, t)
          = Ok (Some true)) as S1.
  { simpl. unfold String.ltb. now rewrite Hst. }
  assert (_compare_single_pre_release_part (false, w, t) (false, v, s)
          = Ok (Some false)) as S2.
  { simpl. unfold String.ltb. rewrite (String.compare_antisym t s), Hst.
    reflexivity. }
  assert (_compare_pre_release_parts a b = Ok true) as Hab.
  { rewrite (compare_pre_release_parts_lex a b _ _ Ha Hb).
    rewrite (lex_parts_tied ta tb Ht). cbn [lex_parts]. now rewrite S1. }
  assert (_compare_pre_release_parts b a = Ok false) as Hba.
  { rewrite (compare_pre_release_parts_lex b a _ _ Hb Ha).
    rewrite (lex_parts_tied tb ta (ties_all_sym _ _ Ht)). cbn [lex_parts].
    now rewrite S2. }
  repeat split; try assumption.
  - now rewrite (lt_same_triple_parts a b _ _ H Ha Hb).
  - now rewrite (lt_same_triple_parts b a _ _ (same_triple_sym _ _ H) Hb Ha).
Qed.

Lemma textual_parts_by_text_witness :
  _compare_pre_release_parts v_alpha v_beta = Ok true /\
  _compare_pre_release_parts v_beta v_alpha = Ok false /\
  __lt__ v_alpha v_beta = Ok true /\ __lt__ v_beta v_alpha = Ok false.
Proof.
  destruct (textual_parts_by_text v_alpha v_beta [] []
              (VStr "alpha") "alpha" [] (VStr "beta") "beta" [])
    as (_ & _ & H1 & H2 & H3).
  - reflexivity.
  - reflexivity.
  - constructor.
  - reflexivity.
  - destruct H3 as [H4 H5]; [repeat split|]. repeat split; assumption.
Defined.

(** X11. The three numbers decide first: when (major, minor, patch) of [a]
    is below that of [b] in lexicographic order, [a] is less than [b] and
    [b] is not less than [a], whatever the pre-release tails and parts of
    the two instances are. *)
Theorem triple_decides_first a b :
  triple_below a b -> __lt__ a b = Ok true /\ __lt__ b a = Ok false.
Proof.
  unfold triple_below, __lt__. intros H.
  destruct (Z.eqb_spec (major a) (major b)) as [E1|N1];
    destruct (Z.eqb_spec (major b) (major a)) as [E1'|N1'];
    try congruence; simpl.
  - destruct (Z.eqb_spec (minor a) (minor b)) as [E2|N2];
      destruct (Z.eqb_spec (minor b) (minor a)) as [E2'|N2'];
      try congruence; simpl.
    + destruct (Z.eqb_spec (patch a) (patch b)) as [E3|N3];
        destruct (Z.eqb_spec (patch b) (patch a)) as [E3'|N3'];
        try congruence; simpl; [lia|].
      split; f_equal; [apply Z.ltb_lt|apply Z.ltb_ge]; lia.
    + split; f_equal; [apply Z.ltb_lt|apply Z.ltb_ge]; lia.
  - split; f_equal; [apply Z.ltb_lt|apply Z.ltb_ge]; lia.
Qed.

Lemma triple_decides_first_witness :
  __lt__ v_release next_alpha = Ok true /\
  __lt__ next_alpha v_release = Ok false.
Proof.
  apply (triple_decides_first v_release next_alpha).
  right. split; [reflexivity|]. right. split; [reflexivity|]. reflexivity.
Defined.

(** X12. [__eq__] is reflexive, symmetric and transitive on all instances,
    and equal constructed instances can replace one another on either side
    of [__lt__]. *)
Theorem eq_is_a_congruence :
  (forall a, __eq__ a a = true) /\
  (forall a b, __eq__ a b = __eq__ b a) /\
  (forall a b c, __eq__ a b = true -> __eq__ b c = true -> __eq__ a c = true) /\
  (forall sa sa' sb a a' b,
      __init__ sa = Ok a -> __init__ sa' = Ok a' -> __init__ sb = Ok b ->
      __eq__ a a' = true ->
      __lt__ a b = __lt__ a' b /\ __lt__ b a = __lt__ b a').
Proof.
  split; [|split; [|split]].
  - intros a. apply eq_spec. auto.
  - intros a b. destruct (__eq__ a b) eqn:E1, (__eq__ b a) eqn:E2; auto.
    + apply eq_spec in E1. rewrite <- E2. symmetry. apply eq_spec.
      intuition congruence.
    + apply eq_spec in E2. rewrite <- E1. apply eq_spec.
      intuition congruence.
  - intros a b c H1 H2. apply eq_spec in H1, H2. apply eq_spec.
    intuition congruence.
  - intros sa sa' sb a a' b Ha Ha' Hb He.
    pose proof (eq_key sa sa' a a' Ha Ha' He) as K.
    pose proof (init_well_formed sa a Ha) as Wa.
    pose proof (init_well_formed sa' a' Ha') as Wa'.
    pose proof (init_well_formed sb b Hb) as Wb.
    rewrite (lt_key a b Wa Wb), (lt_key a' b Wa' Wb), (lt_key b a Wb Wa),
      (lt_key b a' Wb Wa'), K. auto.
Qed.

Lemma eq_is_a_congruence_witness :
  __lt__ (mk "1.0" 1 0 0 None None) v_alpha = __lt__ v_release v_alpha /\
  __lt__ v_alpha (mk "1.0" 1 0 0 None None) = __lt__ v_alpha v_release.
Proof.
  apply (proj2 (proj2 (proj2 eq_is_a_congruence))
           "1.0" "1.0.0" "1.0.0-alpha"); reflexivity.
Defined.

(** X13. Two constructed instances neither of which is less than the other
    compare in the same way with every third constructed instance: the
    order is a strict weak order, which is what sorting by [<] needs. *)
Theorem incomparable_instances_interchangeable sa sb sc a b c :
  __init__ sa = Ok a -> __init__ sb = Ok b -> __init__ sc = Ok c ->
  __lt__ a b = Ok false -> __lt__ b a = Ok false ->
  __lt__ a c = __lt__ b c /\ __lt__ c a = __lt__ c b.
Proof.
  intros Ha Hb Hc H1 H2.
  pose proof (not_lt_same_key sa sb a b Ha Hb H1 H2) as K.
  pose proof (init_well_formed sa a Ha) as Wa.
  pose proof (init_well_formed sb b Hb) as Wb.
  pose proof (init_well_formed sc c Hc) as Wc.
  rewrite (lt_key a c Wa Wc), (lt_key b c Wb Wc), (lt_key c a Wc Wa),
    (lt_key c b Wc Wb), K. auto.
Qed.

Lemma incomparable_instances_interchangeable_witness :
  __lt__ one v_alpha = __lt__ zero_one v_alpha /\
  __lt__ v_alpha one = __lt__ v_alpha zero_one.
Proof.
  apply (incomparable_instances_interchangeable
           "1.0.0-1" "1.0.0-01" "1.0.0-alpha"); reflexivity.
Defined.

(** X14. The operators derived by [@total_ordering], on constructed
    instances: [a >= b] holds exactly when [b] is less than [a] or the keys
    are the same; [a > b] holds exactly when [b] is less than [a], or the
    keys are the same and [a == b] is false; [a <= b] holds exactly when [b]
    is not less than [a] and that last case does not occur.  So for two
    instances with the same key that are not equal, [a > b] and [b > a] both
    hold and neither [a <= b] nor [b <= a] does. *)
Theorem total_ordering_operators sa sb a b :
  __init__ sa = Ok a -> __init__ sb = Ok b ->
  (__ge__ a b = Ok true <-> __lt__ b a = Ok true \/ key_of a = key_of b) /\
  (__gt__ a b = Ok true <-> __lt__ b a = Ok true \/ tied_unequal a b) /\
  (__le__ a b = Ok true <-> __lt__ b a = Ok false /\ ~ tied_unequal a b) /\
  (tied_unequal a b ->
   __gt__ a b = Ok true /\ __gt__ b a = Ok true /\
   __le__ a b = Ok false /\ __le__ b a = Ok false).
Proof.
  intros Ha Hb. unfold __ge__, __gt__, __le__, __ne__, tied_unequal.
  pose proof (init_well_formed sa a Ha) as Wa.
  pose proof (init_well_formed sb b Hb) as Wb.
  destruct key_order as [keq krefl kopp ktrans].
  pose proof (eq_key sa sb a b Ha Hb) as Heq.
  assert (__eq__ b a = __eq__ a b) as Hsym.
  { destruct (__eq__ a b) eqn:E1, (__eq__ b a) eqn:E2; auto.
    - apply eq_spec in E1. rewrite <- E2. apply eq_spec. intuition congruence.
    - apply eq_spec in E2. rewrite <- E1. symmetry. apply eq_spec.
      intuition congruence. }
  rewrite (lt_key a b Wa Wb), (lt_key b a Wb Wa), Hsym.
  rewrite (kopp (key_of a) (key_of b)). simpl.
  destruct (key_cmp (key_of a) (key_of b)) eqn:E; simpl.
  - apply keq in E. destruct (__eq__ a b) eqn:Ee; simpl.
    + repeat split; auto; try discriminate; intuition discriminate.
    + repeat split; auto; try discriminate; tauto.
  - assert (key_of a <> key_of b) as Hne.
    { intros H. rewrite H, krefl in E. discriminate E. }
    assert (__eq__ a b = false) as ->.
    { destruct (__eq__ a b); [elim Hne; now apply Heq|reflexivity]. }
    simpl. repeat split; auto; try discriminate; try tauto;
      intuition discriminate.
  - assert (key_of a <> key_of b) as Hne.
    { intros H. rewrite H, krefl in E. discriminate E. }
    assert (__eq__ a b = false) as ->.
    { destruct (__eq__ a b); [elim Hne; now apply Heq|reflexivity]. }
    simpl. repeat split; auto; try discriminate; try tauto;
      intuition discriminate.
Qed.

Lemma total_ordering_operators_witness :
  __gt__ one zero_one = Ok true /\ __gt__ zero_one one = Ok true /\
  __le__ one zero_one = Ok false /\ __le__ zero_one one = Ok false.
Proof.
  destruct (total_ordering_operators "1.0.0-1" "1.0.0-01" one zero_one
              eq_refl eq_refl) as (_ & _ & _ & H).
  apply H. split; reflexivity.
Defined.

(** X15. Only the number of a numeric identifier counts: for the same digit
    groups X.Y.Z and two one-segment tails that each hold a first digit run,
    all of at most 4300 digits, the instances are ordered by the numbers of
    these runs, whatever letters surround them; with the same number neither
    is less than the other. *)
Theorem only_the_number_of_an_identifier_counts X Y Z p d q p' d' q' :
  digit_group X = true -> digit_group Y = true -> digit_group Z = true ->
  within_limit X = true -> within_limit Y = true -> within_limit Z = true ->
  has_digit p = false -> digit_group d = true -> no_digit_ahead q = true ->
  within_limit d = true -> Py.contains "." (p ++ d ++ q) = false ->
  has_digit p' = false -> digit_group d' = true -> no_digit_ahead q' = true ->
  within_limit d' = true -> Py.contains "." (p' ++ d' ++ q') = false ->
  exists a b,
    __init__ (X ++ "." ++ Y ++ "." ++ Z ++ "-" ++ (p ++ d ++ q)) = Ok a /\
    __init__ (X ++ "." ++ Y ++ "." ++ Z ++ "-" ++ (p' ++ d' ++ q')) = Ok b /\
    __lt__ a b = Ok (decimal 0 d <? decimal 0 d') /\
    __lt__ b a = Ok (decimal 0 d' <? decimal 0 d).
Proof.
  intros HX HY HZ LX LY LZ Hp Hd Hq Ld Hdot Hp' Hd' Hq' Ld' Hdot'.
  assert (tail_within_limit (p ++ d ++ q) = true) as LT.
  { unfold tail_within_limit. rewrite (split_whole "." _ Hdot).
    cbn [forallb]. now rewrite run_within_limit_first_run, Ld. }
  assert (tail_within_limit (p' ++ d' ++ q') = true) as LT'.
  { unfold tail_within_limit. rewrite (split_whole "." _ Hdot').
    cbn [forallb]. now rewrite run_within_limit_first_run, Ld'. }
  do 2 eexists. split; [now apply init_three_dash|].
  split; [now apply init_three_dash|]. split.
  - apply (lt_single_numeric _ _ (decimal 0 d) (p ++ d ++ q)
             (decimal 0 d') (p' ++ d' ++ q')).
    + repeat split.
    + cbn [pre_release_parts].
      now rewrite parts_of_single, part_of_first_run.
    + cbn [pre_release_parts].
      now rewrite parts_of_single, part_of_first_run.
  - apply (lt_single_numeric _ _ (decimal 0 d') (p' ++ d' ++ q')
             (decimal 0 d) (p ++ d ++ q)).
    + repeat split.
    + cbn [pre_release_parts].
      now rewrite parts_of_single, part_of_first_run.
    + cbn [pre_release_parts].
      now rewrite parts_of_single, part_of_first_run.
Qed.

Lemma only_the_number_of_an_identifier_counts_witness :
  exists a b,
    __init__ ("1" ++ "." ++ "0" ++ "." ++ "0" ++ "-" ++ ("rc" ++ "1" ++ ""))
    = Ok a /\
    __init__ ("1" ++ "." ++ "0" ++ "." ++ "0" ++ "-" ++ ("beta" ++ "1" ++ ""))
    = Ok b /\
    __lt__ a b = Ok (decimal 0 "1" <? decimal 0 "1") /\
    __lt__ b a = Ok (decimal 0 "1" <? decimal 0 "1").
Proof.
  exact (only_the_number_of_an_identifier_counts
           "1" "0" "0" "rc" "1" "" "beta" "1" ""
           eq_refl eq_refl eq_refl eq_refl eq_refl eq_refl
           eq_refl eq_refl eq_refl eq_refl eq_refl
           eq_refl eq_refl eq_refl eq_refl eq_refl).
Defined.

(** ** The instance as a whole *)

(** X16. A constructed instance keeps its input: [str] returns the raw
    string unchanged, leading [v]s included, and [repr] wraps it; its parts
    are absent exactly when its pre-release text is absent, which is what
    [_has_pre_release] reports. *)
Theorem instance_keeps_its_input s v :
  __init__ s = Ok v ->
  __str__ v = s /\ __repr__ v = "Version('" ++ s ++ "')" /\
  (pre_release_parts v = None <-> pre_release v = None) /\
  (_has_pre_release v = true <-> pre_release v <> None).
Proof.
  intros Hv.
  destruct (init_ok_inv s v Hv) as (m & p & x & y & z & _ & _ & _ & ->).
  unfold __str__, __repr__, _has_pre_release. simpl.
  split; [reflexivity|]. split; [reflexivity|].
  destruct p as [tail|]; simpl; split; split; congruence.
Qed.

Lemma instance_keeps_its_input_witness :
  __str__ (mk "vv1.0" 1 0 0 None None) = "vv1.0" /\
  __repr__ (mk "vv1.0" 1 0 0 None None) = "Version('" ++ "vv1.0" ++ "')" /\
  (pre_release_parts (mk "vv1.0" 1 0 0 None None) = None <->
   pre_release (mk "vv1.0" 1 0 0 None None) = None) /\
  (_has_pre_release (mk "vv1.0" 1 0 0 None None) = true <->
   pre_release (mk "vv1.0" 1 0 0 None None) <> None).
Proof.
  exact (instance_keeps_its_input "vv1.0" (mk "vv1.0" 1 0 0 None None)
           eq_refl).
Defined.
